(** * MoonTVPlus: danmaku filter route and private library page

    A shallow embedding of
    - [src/app/api/danmaku-filter/route.ts] (the GET and POST handlers), and
    - [src/app/private-library/page.tsx] (source parameter parsing and the
      paginated, cancellable list fetch),
    followed by the properties the specification states about them. *)

From Stdlib Require Import ZArith String Ascii List Bool Lia.
From stdpp Require Import base option list strings pretty gmap.

Local Open Scope string_scope.
Set Warnings "-register-all".

(** ** JavaScript values as the handlers see them *)

Module JS.

(** What the code observes of a JavaScript number: its truthiness
    ([+0], [-0] and [NaN] are falsy) and its [String(n)] rendering. *)
Class NumberOps (Num : Type) := {
  num_truthy : Num -> bool;
  num_to_string : Num -> string
}.

(** Exceptions a handler can meet. *)
Inductive Exn :=
| TypeError
| SyntaxError
| HostError.

(** Outcome of evaluating an expression: a value or a thrown exception. *)
Inductive Completion (A : Type) :=
| Normal (a : A)
| Throw (e : Exn).
Arguments Normal {A} a.
Arguments Throw {A} e.

#[global] Instance completion_ret : MRet Completion := fun A a => Normal a.
#[global] Instance completion_bind : MBind Completion :=
  fun A B f m => match m with Normal a => f a | Throw e => Throw e end.

(** [rules.map(f)] with a callback that may throw: elements are visited
    left to right and the first exception aborts the whole map. *)
Fixpoint map_throwing {A B : Type} (f : A -> Completion B) (l : list A)
  : Completion (list B) :=
  match l with
  | [] => Normal []
  | x :: l' => y ← f x; ys ← map_throwing f l'; Normal (y :: ys)
  end.

Section Values.
Context {Num : Type} `{NumberOps Num}.

(** A value produced by [JSON.parse], plus [undefined] (the result of
    reading a property that is not there). *)
Inductive Value :=
| Undefined
| Null
| Bool (b : bool)
| Number (n : Num)
| Str (s : string)
| Array (elems : list Value)
| Object (props : list (string * Value)).

(** [ToBoolean]: the test behind [!v], [v || w] and [Boolean(v)]. *)
Definition ToBoolean (v : Value) : bool :=
  match v with
  | Undefined | Null => false
  | Bool b => b
  | Number n => num_truthy n
  | Str s => negb (String.eqb s "")
  | Array _ | Object _ => true
  end.

(** [a || b] *)
Definition or_else (a b : Value) : Value :=
  if ToBoolean a then a else b.

Fixpoint own_property (props : list (string * Value)) (k : string)
  : option Value :=
  match props with
  | [] => None
  | (k', v) :: rest => if String.eqb k' k then Some v else own_property rest k
  end.

(** [v.k] for the property names the handlers read ([rules], [keyword],
    [type], [enabled], [id]): none of them lives on a built-in prototype,
    so only an object's own property can answer; reading from [null] or
    [undefined] throws. *)
Definition Get (v : Value) (k : string) : Completion Value :=
  match v with
  | Undefined | Null => Throw TypeError
  | Object props => Normal (default Undefined (own_property props k))
  | _ => Normal Undefined
  end.

Definition isArray (v : Value) : bool :=
  match v with Array _ => true | _ => false end.

(** [v === 'lit'] for a string literal. *)
Definition strict_eq_str (v : Value) (lit : string) : bool :=
  match v with Str s => String.eqb s lit | _ => false end.

(** [String(v)].  An array is joined with commas, [null] and [undefined]
    elements contributing nothing.  A plain object renders as
    ["[object Object]"], unless it carries its own [toString] property:
    a parsed value is never callable, [valueOf] then yields the object
    itself, and the conversion throws. *)
Fixpoint ToString (v : Value) : Completion string :=
  match v with
  | Undefined => Normal "undefined"
  | Null => Normal "null"
  | Bool b => Normal (if b then "true" else "false")
  | Number n => Normal (num_to_string n)
  | Str s => Normal s
  | Array elems =>
      (fix join (l : list Value) : Completion string :=
         match l with
         | [] => Normal ""
         | x :: l' =>
             s ← match x with
                 | Undefined | Null => Normal ""
                 | _ => ToString x
                 end;
             match l' with
             | [] => Normal s
             | _ :: _ => r ← join l'; Normal (s ++ "," ++ r)
             end
         end) elems
  | Object props =>
      match own_property props "toString" with
      | Some _ => Throw TypeError
      | None => Normal "[object Object]"
      end
  end.

End Values.
Arguments Value Num : clear implicits.

End JS.

(** ** The danmaku filter route: [src/app/api/danmaku-filter/route.ts] *)

Module Route.
Import JS.

(** What [getAuthInfoFromCookie] hands back when it finds a cookie; the
    handlers read nothing but [username], which may be missing. *)
Record AuthInfo := { auth_username : option string }.

(** Modelled from the spec: an entry of the shared user list (its type is
    declared in [@/lib/admin.types], outside this development):
    [{ username, banned: bool }]. *)
Record User := { username : string; banned : bool }.

Record UserConfigT := { Users : list User }.
Record AdminConfig := { UserConfig : UserConfigT }.

(** The surroundings of one request: [process.env.ADMIN_USERNAME] and the
    outcome of [await getConfig()]. *)
Record Env := {
  ADMIN_USERNAME : option string;
  getConfig : Completion AdminConfig
}.

Section Handlers.
Context {Num : Type} `{NumberOps Num}.

(** A stored rule, as the POST handler builds it: [id] holds
    [Undefined] when the rule has none. *)
Record DanmakuFilterRule := {
  keyword : string;
  type : string;
  enabled : bool;
  id : Value Num
}.

Record DanmakuFilterConfig := { rules : list DanmakuFilterRule }.

(** The request: the decoded cookie ([getAuthInfoFromCookie(request)])
    and the outcome of [await request.json()]. *)
Record NextRequest := {
  getAuthInfoFromCookie : option AuthInfo;
  json : Completion (Value Num)
}.

Inductive Body :=
| ErrorBody (error : string)
| ConfigBody (config : DanmakuFilterConfig)
| SuccessBody (success : bool).

Record NextResponse := { status : Z; body : Body }.

(** [NextResponse.json(body, { status })]; the status defaults to 200. *)
Definition NextResponse_json (b : Body) (init : option Z) : NextResponse :=
  {| status := default 200%Z init; body := b |}.

(** *** The store behind [db] *)

Inductive DbCall :=
| GetCall (userName : string)
| SetCall (userName : string) (config : DanmakuFilterConfig).

(** Modelled from the spec: the key-value store of [@/lib/db] (outside
    this development), exposing
    [getDanmakuFilterConfig(username) -> FilterConfig|null] and
    [setDanmakuFilterConfig(username, FilterConfig) -> void].  [calls]
    records every call in order, newest first; a store that is not
    [available] makes each call throw.  (That a write which throws leaves
    the contents alone is this model's choice; the specification does not
    say what a failed write leaves behind.) *)
Record Db := {
  kv : gmap string DanmakuFilterConfig;
  available : bool;
  calls : list DbCall
}.

(** Handler code: it may touch the store and may throw. *)
Definition Handler (A : Type) : Type := Db -> Completion A * Db.

#[global] Instance handler_ret : MRet Handler := fun A a db => (Normal a, db).
#[global] Instance handler_bind : MBind Handler :=
  fun A B f m db =>
    match m db with
    | (Normal a, db') => f a db'
    | (Throw e, db') => (Throw e, db')
    end.

(** [await e] for an expression that does not touch the store. *)
Definition await {A : Type} (c : Completion A) : Handler A :=
  fun db => (c, db).

Definition called (c : DbCall) (db : Db) : Db :=
  {| kv := kv db; available := available db; calls := c :: calls db |}.

Definition db_getDanmakuFilterConfig (userName : string)
  : Handler (option DanmakuFilterConfig) :=
  fun db =>
    let db' := called (GetCall userName) db in
    if available db then (Normal (kv db !! userName), db')
    else (Throw HostError, db').

Definition db_setDanmakuFilterConfig (userName : string)
    (config : DanmakuFilterConfig) : Handler unit :=
  fun db =>
    let db' := called (SetCall userName config) db in
    if available db
    then (Normal tt,
          {| kv := <[userName := config]> (kv db');
             available := available db'; calls := calls db' |})
    else (Throw HostError, db').

(** *** GET *)

(** Lines 33-41: what [GET] does once the authorization block is
    passed. *)
Definition GET_read (name : string) : Handler NextResponse :=
  filterConfig ← db_getDanmakuFilterConfig name;
  match filterConfig with
  | None => mret (NextResponse_json (ConfigBody {| rules := [] |}) None)
  | Some c => mret (NextResponse_json (ConfigBody c) None)
  end.

(** The body of the [try] block of [GET]. *)
Definition GET_try (env : Env) (request : NextRequest) : Handler NextResponse :=
  match getAuthInfoFromCookie request with
  | None => mret (NextResponse_json (ErrorBody "未登录") (Some 401%Z))
  | Some authInfo =>
    match auth_username authInfo with
    | None | Some "" =>
        mret (NextResponse_json (ErrorBody "未登录") (Some 401%Z))
    | Some name =>
        config ← await (getConfig env);
        if bool_decide (Some name ≠ ADMIN_USERNAME env) then
          match find (fun u => String.eqb (username u) name)
                     (Users (UserConfig config)) with
          | None =>
              mret (NextResponse_json (ErrorBody "用户不存在") (Some 401%Z))
          | Some user =>
              if banned user
              then mret (NextResponse_json (ErrorBody "用户已被封禁") (Some 401%Z))
              else GET_read name
          end
        else GET_read name
    end
  end.

(** [GET]: the [try] block, any exception caught and answered with 500. *)
Definition GET (env : Env) (request : NextRequest) (db : Db)
  : NextResponse * Db :=
  match GET_try env request db with
  | (Normal response, db') => (response, db')
  | (Throw _, db') =>
      (NextResponse_json (ErrorBody "获取弹幕过滤配置失败") (Some 500%Z), db')
  end.

(** *** POST *)

(** The callback of [config.rules.map]: one input rule to one stored
    rule.  Reading a property of [null] throws, and so may [String]. *)
Definition validate_rule (rule : Value Num) : Completion DanmakuFilterRule :=
  rule_keyword ← Get rule "keyword";
  keyword' ← ToString (or_else rule_keyword (Str ""));
  rule_type ← Get rule "type";
  rule_enabled ← Get rule "enabled";
  rule_id ← Get rule "id";
  Normal {|
    keyword := keyword';
    type := match rule_type with
            | Str t =>
                if String.eqb t "regex" || String.eqb t "normal"
                then t else "normal"
            | _ => "normal"
            end;
    enabled := ToBoolean rule_enabled;
    id := or_else rule_id Undefined
  |}.

(** Lines 72-93: what [POST] does once the authorization block is
    passed. *)
Definition POST_write (name : string) (request : NextRequest)
  : Handler NextResponse :=
  config ← await (json request);
  if negb (ToBoolean config)
  then mret (NextResponse_json (ErrorBody "配置格式错误") (Some 400%Z))
  else
    config_rules ← await (Get config "rules");
    match config_rules with
    | Array input_rules =>
        validatedRules ← await (map_throwing validate_rule input_rules);
        let validatedConfig := {| rules := validatedRules |} in
        db_setDanmakuFilterConfig name validatedConfig;;
        mret (NextResponse_json (SuccessBody true) None)
    | _ => mret (NextResponse_json (ErrorBody "配置格式错误") (Some 400%Z))
    end.

(** The body of the [try] block of [POST]. *)
Definition POST_try (env : Env) (request : NextRequest) : Handler NextResponse :=
  match getAuthInfoFromCookie request with
  | None => mret (NextResponse_json (ErrorBody "未登录") (Some 401%Z))
  | Some authInfo =>
    match auth_username authInfo with
    | None | Some "" =>
        mret (NextResponse_json (ErrorBody "未登录") (Some 401%Z))
    | Some name =>
        adminConfig ← await (getConfig env);
        if bool_decide (Some name ≠ ADMIN_USERNAME env) then
          match find (fun u => String.eqb (username u) name)
                     (Users (UserConfig adminConfig)) with
          | None =>
              mret (NextResponse_json (ErrorBody "用户不存在") (Some 401%Z))
          | Some user =>
              if banned user
              then mret (NextResponse_json (ErrorBody "用户已被封禁") (Some 401%Z))
              else POST_write name request
          end
        else POST_write name request
    end
  end.

(** [POST]: the [try] block, any exception caught and answered with 500. *)
Definition POST (env : Env) (request : NextRequest) (db : Db)
  : NextResponse * Db :=
  match POST_try env request db with
  | (Normal response, db') => (response, db')
  | (Throw _, db') =>
      (NextResponse_json (ErrorBody "保存弹幕过滤配置失败") (Some 500%Z), db')
  end.

End Handlers.

Arguments DanmakuFilterRule Num : clear implicits.
Arguments DanmakuFilterConfig Num : clear implicits.
Arguments NextRequest Num : clear implicits.
Arguments NextResponse Num : clear implicits.
Arguments Body Num : clear implicits.
Arguments Db Num : clear implicits.
Arguments DbCall Num : clear implicits.
End Route.

(** ** The private library page: [src/app/private-library/page.tsx] *)

Module PrivateLibrary.

(** *** Strings *)

(** [s.includes(c)] for a one-character string [c]. *)
Fixpoint includes (s : string) (c : ascii) : bool :=
  match s with
  | EmptyString => false
  | String a rest => Ascii.eqb a c || includes rest c
  end.

(** [s.split(c)] for a one-character separator [c]: the pieces between
    the separators, empty ones included. *)
Fixpoint split (s : string) (c : ascii) : list string :=
  match s with
  | EmptyString => [""]
  | String a rest =>
      if Ascii.eqb a c then "" :: split rest c
      else match split rest c with
           | piece :: pieces => String a piece :: pieces
           | [] => [String a ""]
           end
  end.

(** *** Data *)

Record EmbySourceOption := { key : string; name : string }.

Inductive MediaType := movie | tv.

Record Video := {
  id : string;
  title : string;
  poster : string;
  year : option string;
  mediaType : MediaType
}.

Record RuntimeConfig := { OPENLIST_ENABLED : bool; EMBY_ENABLED : bool }.

(** *** The [source] URL parameter *)

Record ParsedSource := {
  parsed_sourceType : string;
  parsed_embyKey : option string
}.

(** [parseSourceParam]; [None] is the [null] of an absent parameter, and
    the empty string is falsy like it. *)
Definition parseSourceParam (sourceParam : option string) : ParsedSource :=
  match sourceParam with
  | None | Some "" =>
      {| parsed_sourceType := "openlist"; parsed_embyKey := None |}
  | Some s =>
      if includes s ":" then
        let parts := split s ":" in
        {| parsed_sourceType := default "" (parts !! 0%nat);
           parsed_embyKey := parts !! 1%nat |}
      else {| parsed_sourceType := s; parsed_embyKey := None |}
  end.

(** A string-or-undefined in a boolean position. *)
Definition truthy (s : option string) : bool :=
  match s with
  | None | Some "" => false
  | Some _ => true
  end.

(** The value the URL-sync effect stores under [source]:
    [params.set('source', ...)].  Inside the template literal an
    undefined key would print as ["undefined"]; the guard excludes it. *)
Definition sourceParam (sourceType : string) (embyKey : option string)
    (embySourceOptions : list EmbySourceOption) : string :=
  if String.eqb sourceType "emby" && truthy embyKey
     && (1 <? length embySourceOptions)%nat
  then "emby:" ++ default "undefined" embyKey
  else sourceType.

(** *** The list fetch *)

(** Modelled from the spec: the JSON the list endpoints answer with
    (they live outside this development), [{list, page?, totalPages?,
    error?}]; a field that is absent is [None]. *)
Record ListData := {
  data_error : option string;
  data_list : option (list Video);
  data_page : option Z;
  data_totalPages : option Z
}.

(** How the network side of one [fetchVideos] call can end, leaving
    cancellation aside. *)
Inductive Outcome :=
| FetchRejected               (* [fetch] rejects *)
| NotOk                       (* a response with [!response.ok] *)
| JsonRejected                (* [response.json()] rejects, or yields [null] *)
| Answered (data : ListData). (* [response.ok] and a parsed body *)

(** The values of one render that the fetch effect closes over. *)
Record Deps := {
  sourceType : string;
  embyKey : option string;
  page : Z;
  selectedView : string
}.

(** A [fetchVideos] call suspended at its [await]: what its
    continuation still needs.  Its [abortController] is the key it is
    filed under. *)
Record Request := {
  isInitial : bool;
  request_page : Z;
  endpoint : string
}.

(** React state, refs, and the two pieces of heap the fetch effect
    works with: [signals !! c] is [signal.aborted] of the [c]-th
    [AbortController] created, [pending] the suspended calls. *)
Record State := {
  st_sourceType : string;
  st_embyKey : option string;
  st_selectedView : string;
  st_page : Z;
  videos : list Video;
  loading : bool;
  loadingMore : bool;
  error : string;
  hasMore : bool;
  isFetchingRef : bool;
  isInitializedRef : bool;
  abortControllerRef : option nat;
  signals : list bool;
  pending : gmap nat Request
}.

(** The state the component mounts with. *)
Definition initial : State := {|
  st_sourceType := "openlist"; st_embyKey := None;
  st_selectedView := "all"; st_page := 1;
  videos := []; loading := true; loadingMore := false;
  error := ""; hasMore := true;
  isFetchingRef := false; isInitializedRef := false;
  abortControllerRef := None; signals := []; pending := ∅
|}.

(** The part of the state a fetch can commit to. *)
Record Committed := {
  c_videos : list Video;
  c_loading : bool;
  c_loadingMore : bool;
  c_error : string;
  c_hasMore : bool;
  c_isFetching : bool
}.

Definition committed (st : State) : Committed := {|
  c_videos := videos st; c_loading := loading st;
  c_loadingMore := loadingMore st; c_error := error st;
  c_hasMore := hasMore st; c_isFetching := isFetchingRef st
|}.

(** The values the current state would render with. *)
Definition render (st : State) : Deps := {|
  sourceType := st_sourceType st; embyKey := st_embyKey st;
  page := st_page st; selectedView := st_selectedView st
|}.

(** Assignments, one per state variable or ref. *)
Definition setSourceType (v : string) (st : State) : State :=
  {| st_sourceType := v; st_embyKey := st_embyKey st;
     st_selectedView := st_selectedView st; st_page := st_page st;
     videos := videos st; loading := loading st;
     loadingMore := loadingMore st; error := error st;
     hasMore := hasMore st; isFetchingRef := isFetchingRef st;
     isInitializedRef := isInitializedRef st;
     abortControllerRef := abortControllerRef st;
     signals := signals st; pending := pending st |}.

Definition setEmbyKey (v : option string) (st : State) : State :=
  {| st_sourceType := st_sourceType st; st_embyKey := v;
     st_selectedView := st_selectedView st; st_page := st_page st;
     videos := videos st; loading := loading st;
     loadingMore := loadingMore st; error := error st;
     hasMore := hasMore st; isFetchingRef := isFetchingRef st;
     isInitializedRef := isInitializedRef st;
     abortControllerRef := abortControllerRef st;
     signals := signals st; pending := pending st |}.

Definition setSelectedView (v : string) (st : State) : State :=
  {| st_sourceType := st_sourceType st; st_embyKey := st_embyKey st;
     st_selectedView := v; st_page := st_page st;
     videos := videos st; loading := loading st;
     loadingMore := loadingMore st; error := error st;
     hasMore := hasMore st; isFetchingRef := isFetchingRef st;
     isInitializedRef := isInitializedRef st;
     abortControllerRef := abortControllerRef st;
     signals := signals st; pending := pending st |}.

Definition setPage (v : Z) (st : State) : State :=
  {| st_sourceType := st_sourceType st; st_embyKey := st_embyKey st;
     st_selectedView := st_selectedView st; st_page := v;
     videos := videos st; loading := loading st;
     loadingMore := loadingMore st; error := error st;
     hasMore := hasMore st; isFetchingRef := isFetchingRef st;
     isInitializedRef := isInitializedRef st;
     abortControllerRef := abortControllerRef st;
     signals := signals st; pending := pending st |}.

Definition setVideos (v : list Video) (st : State) : State :=
  {| st_sourceType := st_sourceType st; st_embyKey := st_embyKey st;
     st_selectedView := st_selectedView st; st_page := st_page st;
     videos := v; loading := loading st;
     loadingMore := loadingMore st; error := error st;
     hasMore := hasMore st; isFetchingRef := isFetchingRef st;
     isInitializedRef := isInitializedRef st;
     abortControllerRef := abortControllerRef st;
     signals := signals st; pending := pending st |}.

Definition setLoading (v : bool) (st : State) : State :=
  {| st_sourceType := st_sourceType st; st_embyKey := st_embyKey st;
     st_selectedView := st_selectedView st; st_page := st_page st;
     videos := videos st; loading := v;
     loadingMore := loadingMore st; error := error st;
     hasMore := hasMore st; isFetchingRef := isFetchingRef st;
     isInitializedRef := isInitializedRef st;
     abortControllerRef := abortControllerRef st;
     signals := signals st; pending := pending st |}.

Definition setLoadingMore (v : bool) (st : State) : State :=
  {| st_sourceType := st_sourceType st; st_embyKey := st_embyKey st;
     st_selectedView := st_selectedView st; st_page := st_page st;
     videos := videos st; loading := loading st;
     loadingMore := v; error := error st;
     hasMore := hasMore st; isFetchingRef := isFetchingRef st;
     isInitializedRef := isInitializedRef st;
     abortControllerRef := abortControllerRef st;
     signals := signals st; pending := pending st |}.

Definition setError (v : string) (st : State) : State :=
  {| st_sourceType := st_sourceType st; st_embyKey := st_embyKey st;
     st_selectedView := st_selectedView st; st_page := st_page st;
     videos := videos st; loading := loading st;
     loadingMore := loadingMore st; error := v;
     hasMore := hasMore st; isFetchingRef := isFetchingRef st;
     isInitializedRef := isInitializedRef st;
     abortControllerRef := abortControllerRef st;
     signals := signals st; pending := pending st |}.

Definition setHasMore (v : bool) (st : State) : State :=
  {| st_sourceType := st_sourceType st; st_embyKey := st_embyKey st;
     st_selectedView := st_selectedView st; st_page := st_page st;
     videos := videos st; loading := loading st;
     loadingMore := loadingMore st; error := error st;
     hasMore := v; isFetchingRef := isFetchingRef st;
     isInitializedRef := isInitializedRef st;
     abortControllerRef := abortControllerRef st;
     signals := signals st; pending := pending st |}.

Definition setIsFetching (v : bool) (st : State) : State :=
  {| st_sourceType := st_sourceType st; st_embyKey := st_embyKey st;
     st_selectedView := st_selectedView st; st_page := st_page st;
     videos := videos st; loading := loading st;
     loadingMore := loadingMore st; error := error st;
     hasMore := hasMore st; isFetchingRef := v;
     isInitializedRef := isInitializedRef st;
     abortControllerRef := abortControllerRef st;
     signals := signals st; pending := pending st |}.

Definition setIsInitialized (v : bool) (st : State) : State :=
  {| st_sourceType := st_sourceType st; st_embyKey := st_embyKey st;
     st_selectedView := st_selectedView st; st_page := st_page st;
     videos := videos st; loading := loading st;
     loadingMore := loadingMore st; error := error st;
     hasMore := hasMore st; isFetchingRef := isFetchingRef st;
     isInitializedRef := v;
     abortControllerRef := abortControllerRef st;
     signals := signals st; pending := pending st |}.

(** The heap side: the controller ref, the signals, the suspended calls. *)
Definition setHeap (ref : option nat) (sigs : list bool)
    (calls : gmap nat Request) (st : State) : State :=
  {| st_sourceType := st_sourceType st; st_embyKey := st_embyKey st;
     st_selectedView := st_selectedView st; st_page := st_page st;
     videos := videos st; loading := loading st;
     loadingMore := loadingMore st; error := error st;
     hasMore := hasMore st; isFetchingRef := isFetchingRef st;
     isInitializedRef := isInitializedRef st;
     abortControllerRef := ref; signals := sigs; pending := calls |}.

(** [pageSize] *)
Definition pageSize : Z := 20.

(** [a || b] on numbers: zero is falsy, and so is an absent field. *)
Definition number_or (a : option Z) (b : Z) : Z :=
  match a with
  | Some n => if (n =? 0)%Z then b else n
  | None => b
  end.

(** [abortControllerRef.current.abort()], when the ref holds a controller. *)
Definition abort_current (st : State) : State :=
  match abortControllerRef st with
  | Some c => setHeap (Some c) (<[c := true]> (signals st)) (pending st) st
  | None => st
  end.

(** The URL [fetchVideos] requests. *)
Definition endpoint_of (d : Deps) : string :=
  if String.eqb (sourceType d) "openlist"
  then "/api/openlist/list?page=" ++ pretty (page d)
       ++ "&pageSize=" ++ pretty pageSize
  else "/api/emby/list?page=" ++ pretty (page d)
       ++ "&pageSize=" ++ pretty pageSize
       ++ (if negb (String.eqb (selectedView d) "all")
           then "&parentId=" ++ selectedView d else "")
       ++ "&embyKey=" ++ default "undefined" (embyKey d).

(** [fetchVideos], from its call up to [await fetch(...)]: the previous
    controller is aborted first; a source that is not configured ends the
    call there; otherwise a new controller is created and stored in the
    ref, and the call is suspended under it. *)
Definition fetchVideos (runtimeConfig : RuntimeConfig) (d : Deps)
    (st : State) : State :=
  let initial_page := (page d =? 1)%Z in
  let st := abort_current st in
  if String.eqb (sourceType d) "openlist"
     && negb (OPENLIST_ENABLED runtimeConfig)
  then setLoading false st
  else if String.eqb (sourceType d) "emby"
          && (negb (EMBY_ENABLED runtimeConfig) || negb (truthy (embyKey d)))
  then setLoading false st
  else
    let abortController := length (signals st) in
    let st :=
      setHeap (Some abortController) (signals st ++ [false])
        (<[abortController :=
             {| isInitial := initial_page; request_page := page d;
                endpoint := endpoint_of d |}]> (pending st)) st in
    let st := setIsFetching true st in
    let st := if initial_page then setLoading true st
              else setLoadingMore true st in
    setError "" st.

(** [signal.aborted] of a controller. *)
Definition aborted (st : State) (abortController : nat) : bool :=
  default false (signals st !! abortController).

(** The rest of [fetchVideos], once the awaited request of the call
    filed under [abortController] settles.  With the signal aborted the
    awaited promise rejects with an [AbortError]: the [catch] returns and
    the [finally] finds the signal aborted.  Otherwise the outcome [o]
    decides. *)
Definition fetchVideos_resume (abortController : nat) (o : Outcome)
    (st : State) : State :=
  match pending st !! abortController with
  | None => st
  | Some request =>
      let st := setHeap (abortControllerRef st) (signals st)
                  (delete abortController (pending st)) st in
      if aborted st abortController then st
      else
        let st :=
          match o with
          | FetchRejected | NotOk | JsonRejected =>
              let st := setError "获取视频列表失败" st in
              if isInitial request then setVideos [] st else st
          | Answered data =>
              if truthy (data_error data) then
                let st := setError (default "" (data_error data)) st in
                if isInitial request then setVideos [] st else st
              else
                let newVideos := default [] (data_list data) in
                let st := if isInitial request then setVideos newVideos st
                          else setVideos (videos st ++ newVideos) st in
                let currentPage :=
                  number_or (data_page data) (request_page request) in
                let totalPages := number_or (data_totalPages data) 1 in
                let hasMoreData := (currentPage <? totalPages)%Z in
                setHasMore hasMoreData st
          end in
        let st := if isInitial request then setLoading false st
                  else setLoadingMore false st in
        setIsFetching false st
  end.

(** The effect that initialises the state from the URL. *)
Definition initFromUrl (runtimeConfig : RuntimeConfig)
    (urlSourceParam : option string) (st : State) : State :=
  let parsed := parseSourceParam urlSourceParam in
  let st :=
    if negb (OPENLIST_ENABLED runtimeConfig) && EMBY_ENABLED runtimeConfig
    then setSourceType "emby" st
    else if truthy (Some (parsed_sourceType parsed)) then
      let st := setSourceType (parsed_sourceType parsed) st in
      if truthy (parsed_embyKey parsed)
      then setEmbyKey (parsed_embyKey parsed) st else st
    else st in
  setIsInitialized true st.

(** The reset effect on [sourceType] and [embyKey]. *)
Definition resetOnSource (st : State) : State :=
  if negb (isInitializedRef st) then st
  else
    setIsFetching false (setLoadingMore false (setLoading false
      (setSelectedView "all" (setError "" (setHasMore true
        (setVideos [] (setPage 1 st))))))).

(** The reset effect on [selectedView]. *)
Definition resetOnView (st : State) : State :=
  if negb (isInitializedRef st) then st
  else
    setIsFetching false (setLoadingMore false (setLoading false
      (setError "" (setHasMore true (setVideos [] (setPage 1 st)))))).

(** The intersection observer's callback, for an intersecting entry. *)
Definition intersecting (st : State) : State :=
  if hasMore st && negb (loadingMore st) && negb (loading st)
     && negb (isFetchingRef st)
  then setPage (st_page st + 1) st
  else st.

(** *** The controller as a step function

    Every effect and callback is an event.  The fetch effect carries the
    values of the render it belongs to, which need not be those of the
    current state. *)
Inductive Event :=
| InitFromUrl (urlSourceParam : option string)
| ChooseSourceType (value : string)
| ChooseEmbyKey (value : string)
| ChooseView (value : string)
| ResetOnSource
| ResetOnView
| Intersecting
| FetchEffect (d : Deps)
| FetchCleanup
| Settled (abortController : nat) (o : Outcome).

Definition step (runtimeConfig : RuntimeConfig) (st : State) (e : Event)
  : State :=
  match e with
  | InitFromUrl p => initFromUrl runtimeConfig p st
  | ChooseSourceType v => setSourceType v st
  | ChooseEmbyKey v => setEmbyKey (Some v) st
  | ChooseView v => setSelectedView v st
  | ResetOnSource => resetOnSource st
  | ResetOnView => resetOnView st
  | Intersecting => intersecting st
  | FetchEffect d => fetchVideos runtimeConfig d st
  | FetchCleanup => abort_current st
  | Settled c o => fetchVideos_resume c o st
  end.

Definition run (runtimeConfig : RuntimeConfig) (st : State)
    (events : list Event) : State :=
  fold_left (step runtimeConfig) events st.

End PrivateLibrary.

(** * The specification's vocabulary *)

Module Policy.
Import JS Route.

(** Integers as JavaScript numbers, for concrete requests: zero is the
    falsy one and [String] prints decimals. *)
#[global] Instance Z_number : NumberOps Z := {|
  num_truthy := fun n => negb (n =? 0)%Z;
  num_to_string := fun n => pretty n
|}.

Section Authorization.
Context {Num : Type} `{NumberOps Num}.

(** The outcome of the authorization gate, in the order the
    specification gives: no session, then (for anyone but the admin)
    no user record, then a banned record. *)
Inductive Verdict :=
| Unauthenticated
| UnknownUser
| Banned
| ConfigFailed
| Granted (name : string).

(** The username of the session, when there is a non-empty one. *)
Definition session_user (request : NextRequest Num) : option string :=
  match getAuthInfoFromCookie request with
  | Some authInfo =>
      match auth_username authInfo with
      | Some "" => None
      | name => name
      end
  | None => None
  end.

(** The caller's record in the shared user list: the first entry that
    carries the username. *)
Definition user_record (config : AdminConfig) (name : string) : option User :=
  find (fun u => String.eqb (username u) name) (Users (UserConfig config)).

Definition authorize (env : Env) (request : NextRequest Num) : Verdict :=
  match session_user request with
  | None => Unauthenticated
  | Some name =>
      match getConfig env with
      | Throw _ => ConfigFailed
      | Normal config =>
          if bool_decide (ADMIN_USERNAME env = Some name) then Granted name
          else match user_record config name with
               | None => UnknownUser
               | Some user => if banned user then Banned else Granted name
               end
      end
  end.

(** The 401 answer that goes with a denial. *)
Definition denial (v : Verdict) : option (NextResponse Num) :=
  match v with
  | Unauthenticated => Some (NextResponse_json (ErrorBody "未登录") (Some 401%Z))
  | UnknownUser => Some (NextResponse_json (ErrorBody "用户不存在") (Some 401%Z))
  | Banned => Some (NextResponse_json (ErrorBody "用户已被封禁") (Some 401%Z))
  | ConfigFailed | Granted _ => None
  end.

(** A body the POST handler accepts: an object whose [rules] is an array. *)
Definition has_rules_array (config : Value Num) : Prop :=
  exists props input_rules,
    config = Object props /\
    own_property props "rules" = Some (Array input_rules).

(** An input value [v] carries the four fields of the stored rule [r]. *)
Definition reads_as (v : Value Num) (r : DanmakuFilterRule Num) : Prop :=
  Get v "keyword" = Normal (Str (keyword r)) /\
  Get v "type" = Normal (Str (type r)) /\
  Get v "enabled" = Normal (Bool (enabled r)) /\
  Get v "id" = Normal (id r).

(** Normalized form: a string keyword and a boolean [enabled] (by
    type), a type among the two, an id that is a non-empty string or
    undefined. *)
Definition normalized (r : DanmakuFilterRule Num) : Prop :=
  (type r = "normal" \/ type r = "regex") /\
  (id r = Undefined \/ exists s, s <> "" /\ id r = Str s).

(** [v.k] where the read cannot throw. *)
Definition field (v : Value Num) (k : string) : Value Num :=
  match Get v k with
  | Normal x => x
  | Throw _ => Undefined
  end.

(** An input rule the callback gets through: its properties can be
    read (it is neither [null] nor [undefined]) and [String] accepts
    its keyword. *)
Definition convertible (rule : Value Num) : Prop :=
  exists kw text,
    Get rule "keyword" = Normal kw /\
    ToString (or_else kw (Str "")) = Normal text.

(** What normalization makes of one input rule. *)
Definition stored_as (rule : Value Num) (r : DanmakuFilterRule Num) : Prop :=
  ToString (or_else (field rule "keyword") (Str "")) = Normal (keyword r) /\
  (ToBoolean (field rule "keyword") = false -> keyword r = "") /\
  (forall s, field rule "keyword" = Str s -> keyword r = s) /\
  (field rule "type" = Str "regex" -> type r = "regex") /\
  (field rule "type" <> Str "regex" -> type r = "normal") /\
  enabled r = ToBoolean (field rule "enabled") /\
  (ToBoolean (field rule "id") = true -> id r = field rule "id") /\
  (ToBoolean (field rule "id") = false -> id r = Undefined).

(** What normalization makes of the [id] of one input rule. *)
Definition id_kept_or_dropped (rule : Value Num) (r : DanmakuFilterRule Num)
  : Prop :=
  (ToBoolean (field rule "id") = true -> id r = field rule "id") /\
  (ToBoolean (field rule "id") = false -> id r = Undefined) /\
  (field rule "id" = Undefined \/ field rule "id" = Null \/
   field rule "id" = Str "" \/ field rule "id" = Bool false \/
   (exists n, field rule "id" = Number n /\ num_truthy n = false) ->
   id r = Undefined).

End Authorization.
End Policy.

(** ** Concrete requests *)

Module Samples.
Import JS Route Policy.

(** A site whose admin is [owner], with one user in good standing and
    one banned. *)
Definition site : Env := {|
  ADMIN_USERNAME := Some "owner";
  getConfig := Normal {| UserConfig := {| Users := [
    {| username := "alice"; banned := false |};
    {| username := "bob"; banned := true |} ] |} |}
|}.

(** A request with the session of [name] and the given parsed body. *)
Definition request_of (name : string) (parsed : Completion (Value Z))
  : NextRequest Z :=
  {| getAuthInfoFromCookie := Some {| auth_username := Some name |};
     json := parsed |}.

Definition empty_db : Db Z :=
  {| kv := ∅; available := true; calls := [] |}.

(** Two input rules of irregular shape. *)
Definition loose_rules : list (Value Z) := [
  Object [("keyword", Number 5%Z); ("type", Str "regex");
          ("enabled", Number 1%Z); ("id", Str "")];
  Object [("keyword", Null); ("type", Str "fuzzy"); ("id", Str "r2")]
].

Definition loose_body : Value Z := Object [("rules", Array loose_rules)].

(** A rule in normalized form and an input that carries its fields. *)
Definition tidy_rule : DanmakuFilterRule Z :=
  {| keyword := "ad"; type := "regex"; enabled := true; id := Str "r1" |}.

Definition tidy_input : Value Z :=
  Object [("id", Str "r1"); ("keyword", Str "ad"); ("type", Str "regex");
          ("enabled", Bool true)].

End Samples.

(** ** Runs of the browsing controller *)

Module Traces.
Import PrivateLibrary.

(** The items of a response: [data.list || []]. *)
Definition items (data : ListData) : list Video :=
  default [] (data_list data).

(** A render whose source is configured, so that the fetch effect
    issues a request. *)
Definition configured (runtimeConfig : RuntimeConfig) (d : Deps) : Prop :=
  (sourceType d = "openlist" -> OPENLIST_ENABLED runtimeConfig = true) /\
  (sourceType d = "emby" ->
     EMBY_ENABLED runtimeConfig = true /\ truthy (embyKey d) = true).

(** A response that carries no error. *)
Definition successful (data : ListData) : Prop :=
  truthy (data_error data) = false.

(** One page fetched to completion: the effect runs for the render
    [p.1], and the request it issues is answered with [p.2] before
    anything else happens. *)
Definition fetch_page (runtimeConfig : RuntimeConfig) (st : State)
    (p : Deps * ListData) : State :=
  run runtimeConfig st
    [FetchEffect p.1; Settled (length (signals st)) (Answered p.2)].

Definition fetch_pages (runtimeConfig : RuntimeConfig) (st : State)
    (pages : list (Deps * ListData)) : State :=
  fold_left (fetch_page runtimeConfig) pages st.

(** What holds of the controllers and suspended calls in every state
    the page can be in: a suspended call has a controller; one whose
    signal is not aborted is the call the ref points to; and the ref
    points to the controller created last. *)
Definition well_formed (st : State) : Prop :=
  (forall c, is_Some (pending st !! c) -> (c < length (signals st))%nat) /\
  (forall c, is_Some (pending st !! c) -> aborted st c = false ->
             abortControllerRef st = Some c) /\
  (forall c, abortControllerRef st = Some c -> S c = length (signals st)).

(** Only three events touch the controllers and the suspended calls. *)
Definition heap_event (e : Event) : bool :=
  match e with
  | FetchEffect _ | FetchCleanup | Settled _ _ => true
  | _ => false
  end.

(** A page with OpenList on, and renders of its first pages. *)
Definition openlist_only : RuntimeConfig :=
  {| OPENLIST_ENABLED := true; EMBY_ENABLED := false |}.

Definition openlist_page (n : Z) : Deps :=
  {| sourceType := "openlist"; embyKey := None; page := n;
     selectedView := "all" |}.

Definition film (n : string) : Video :=
  {| id := n; title := n; poster := ""; year := None; mediaType := movie |}.

Definition answer (films : list Video) (p t : Z) : ListData :=
  {| data_error := None; data_list := Some films;
     data_page := Some p; data_totalPages := Some t |}.

(** The first page requested at mount, still on its way. *)
Definition first_page_requested : State :=
  run openlist_only initial [FetchEffect (openlist_page 1)].

Definition first_request : Request :=
  {| isInitial := true; request_page := 1;
     endpoint := "/api/openlist/list?page=1&pageSize=20" |}.

Definition two_pages : list (Deps * ListData) := [
  (openlist_page 1, answer [film "a"; film "b"] 1 2);
  (openlist_page 2, answer [film "c"] 2 2)
].

Definition two_sources : list EmbySourceOption := [
  {| key := "emby1"; name := "Home" |};
  {| key := "emby2"; name := "Office" |}
].

End Traces.

(** ** The settings dialog: [src/components/DanmakuFilterSettings.tsx] *)

Module Settings.

(** *** [String.prototype.trim] on UTF-8 text

    White space and line terminators of the language: the ASCII ones,
    and U+00A0, U+1680, U+2000 to U+200A, U+2028, U+2029, U+202F, U+205F,
    U+3000 and U+FEFF in their UTF-8 encodings. *)

Definition space1 (a : ascii) : bool :=
  let x := N_of_ascii a in
  ((9 <=? x) && (x <=? 13) || (x =? 32))%N.

Definition space2 (a b : ascii) : bool :=
  ((N_of_ascii a =? 194) && (N_of_ascii b =? 160))%N.

Definition space3 (a b c : ascii) : bool :=
  let x := N_of_ascii a in
  let y := N_of_ascii b in
  let z := N_of_ascii c in
  ((x =? 225) && (y =? 154) && (z =? 128)
   || (x =? 226) && (y =? 128)
      && ((128 <=? z) && (z <=? 138) || (z =? 168) || (z =? 169) || (z =? 175))
   || (x =? 226) && (y =? 129) && (z =? 159)
   || (x =? 227) && (y =? 128) && (z =? 128)
   || (x =? 239) && (y =? 187) && (z =? 191))%N.

Fixpoint trimStart (s : string) : string :=
  match s with
  | EmptyString => EmptyString
  | String a rest =>
      if space1 a then trimStart rest
      else match rest with
           | String b rest2 =>
               if space2 a b then trimStart rest2
               else match rest2 with
                    | String c rest3 =>
                        if space3 a b c then trimStart rest3 else s
                    | EmptyString => s
                    end
           | EmptyString => s
           end
  end.

Fixpoint reverse_onto (s acc : string) : string :=
  match s with
  | EmptyString => acc
  | String a rest => reverse_onto rest (String a acc)
  end.

(** [trimStart] read from the far end: the bytes of a code point come
    last byte first. *)
Fixpoint trimStart_reversed (s : string) : string :=
  match s with
  | EmptyString => EmptyString
  | String a rest =>
      if space1 a then trimStart_reversed rest
      else match rest with
           | String b rest2 =>
               if space2 b a then trimStart_reversed rest2
               else match rest2 with
                    | String c rest3 =>
                        if space3 c b a then trimStart_reversed rest3 else s
                    | EmptyString => s
                    end
           | EmptyString => s
           end
  end.

Definition trimEnd (s : string) : string :=
  reverse_onto (trimStart_reversed (reverse_onto s "")) "".

(** [s.trim()] *)
Definition trim (s : string) : string := trimEnd (trimStart s).

(** *** Data *)

Inductive RuleType := normal | regex.

(** [DanmakuFilterRule] of [@/lib/types], as the dialog uses it. *)
Record DanmakuFilterRule := {
  keyword : string;
  type : RuleType;
  enabled : bool;
  id : option string
}.

Record DanmakuFilterConfig := { rules : list DanmakuFilterRule }.

(** The state of the dialog, with the alerts it has raised and the
    configurations it has handed to [onConfigUpdate], newest first. *)
Record State := {
  config : DanmakuFilterConfig;
  newKeyword : string;
  newType : RuleType;
  loading : bool;
  saving : bool;
  alerts : list string;
  updates : list DanmakuFilterConfig
}.

(** The state the dialog is created with. *)
Definition initial : State := {|
  config := {| rules := [] |}; newKeyword := ""; newType := normal;
  loading := false; saving := false; alerts := []; updates := []
|}.

Definition setConfig (c : DanmakuFilterConfig) (st : State) : State :=
  {| config := c; newKeyword := newKeyword st; newType := newType st;
     loading := loading st; saving := saving st; alerts := alerts st;
     updates := updates st |}.

Definition setNewKeyword (v : string) (st : State) : State :=
  {| config := config st; newKeyword := v; newType := newType st;
     loading := loading st; saving := saving st; alerts := alerts st;
     updates := updates st |}.

Definition setNewType (v : RuleType) (st : State) : State :=
  {| config := config st; newKeyword := newKeyword st; newType := v;
     loading := loading st; saving := saving st; alerts := alerts st;
     updates := updates st |}.

Definition setLoading (v : bool) (st : State) : State :=
  {| config := config st; newKeyword := newKeyword st; newType := newType st;
     loading := v; saving := saving st; alerts := alerts st;
     updates := updates st |}.

Definition setSaving (v : bool) (st : State) : State :=
  {| config := config st; newKeyword := newKeyword st; newType := newType st;
     loading := loading st; saving := v; alerts := alerts st;
     updates := updates st |}.

Definition alert (message : string) (st : State) : State :=
  {| config := config st; newKeyword := newKeyword st; newType := newType st;
     loading := loading st; saving := saving st;
     alerts := message :: alerts st; updates := updates st |}.

Definition onConfigUpdate (c : DanmakuFilterConfig) (st : State) : State :=
  {| config := config st; newKeyword := newKeyword st; newType := newType st;
     loading := loading st; saving := saving st; alerts := alerts st;
     updates := c :: updates st |}.

(** A string-or-undefined in a boolean position. *)
Definition truthy (s : option string) : bool :=
  match s with
  | None | Some "" => false
  | Some _ => true
  end.

(** *** The handlers *)

(** [handleAddRule], run when [Date.now()] is [now]. *)
Definition handleAddRule (now : Z) (st : State) : State :=
  if String.eqb (trim (newKeyword st)) ""
  then alert "请输入关键字" st
  else
    let newRule := {|
      keyword := trim (newKeyword st);
      type := newType st;
      enabled := true;
      id := Some (pretty now)
    |} in
    setNewKeyword ""
      (setConfig {| rules := rules (config st) ++ [newRule] |} st).

(** [handleDeleteRule(id)] *)
Definition handleDeleteRule (i : option string) (st : State) : State :=
  if negb (truthy i) then st
  else
    setConfig
      {| rules := filter (fun rule => id rule <> i) (rules (config st)) |} st.

(** [handleToggleRule(id)] *)
Definition handleToggleRule (i : option string) (st : State) : State :=
  if negb (truthy i) then st
  else
    setConfig
      {| rules :=
           (fun rule =>
              if bool_decide (id rule = i)
              then {| keyword := keyword rule; type := type rule;
                      enabled := negb (enabled rule); id := id rule |}
              else rule) <$> rules (config st) |} st.

(** [loadConfig], from the moment [getDanmakuFilterConfig()] settles:
    with a configuration, with [null], or by rejecting. *)
Definition loadConfig_settled (loaded : JS.Completion (option DanmakuFilterConfig))
    (st : State) : State :=
  let st :=
    match loaded with
    | JS.Normal (Some loadedConfig) => setConfig loadedConfig st
    | JS.Normal None => setConfig {| rules := [] |} st
    | JS.Throw _ => st
    end in
  setLoading false st.

(** [handleSave], from the moment [saveDanmakuFilterConfig(config)]
    settles; [listening] says whether an [onConfigUpdate] was passed. *)
Definition handleSave_settled (listening : bool) (saved : JS.Completion unit)
    (st : State) : State :=
  let st :=
    match saved with
    | JS.Normal _ =>
        let st := if listening then onConfigUpdate (config st) st else st in
        alert "保存成功！" st
    | JS.Throw _ => alert "保存失败，请重试" st
    end in
  setSaving false st.

(** What the user and the network can do to the dialog. *)
Inductive Action :=
| Type_ (text : string)
| Pick (t : RuleType)
| Add (now : Z)
| Delete (i : option string)
| Toggle (i : option string)
| LoadStart
| LoadSettled (loaded : JS.Completion (option DanmakuFilterConfig))
| SaveStart
| SaveSettled (listening : bool) (saved : JS.Completion unit).

Definition act (st : State) (a : Action) : State :=
  match a with
  | Type_ text => setNewKeyword text st
  | Pick t => setNewType t st
  | Add now => handleAddRule now st
  | Delete i => handleDeleteRule i st
  | Toggle i => handleToggleRule i st
  | LoadStart => setLoading true st
  | LoadSettled loaded => loadConfig_settled loaded st
  | SaveStart => setSaving true st
  | SaveSettled listening saved => handleSave_settled listening saved st
  end.

Definition acts (st : State) (l : list Action) : State := fold_left act l st.

(** The rules the form itself can vouch for: a keyword that is not
    empty and an id. *)
Definition well_shaped (r : DanmakuFilterRule) : Prop :=
  keyword r <> "" /\ truthy (id r) = true.

End Settings.

(** ** The rest of the private library page *)

Module LibraryChrome.
Import PrivateLibrary.

(** *** What the page writes to the URL and hands to the cards *)

(** The parameters the URL-sync effect sets, in order; nothing is
    written before the page is initialised. *)
Definition urlParams (initialized : bool) (sourceType : string)
    (embyKey : option string) (embySourceOptions : list EmbySourceOption)
    (selectedView : string) : option (list (string * string)) :=
  if negb initialized then None
  else
    Some (("source", sourceParam sourceType embyKey embySourceOptions)
          :: (if String.eqb sourceType "emby"
                 && negb (String.eqb selectedView "all")
              then [("view", selectedView)] else [])).

(** The [source] a [VideoCard] gets: the underscore form. *)
Definition cardSourceParam (sourceType : string) (embyKey : option string)
  : string :=
  if String.eqb sourceType "emby" && truthy embyKey
  then "emby_" ++ default "undefined" embyKey
  else sourceType.

(** The [year] a [VideoCard] gets:
    [video.year || (video.releaseDate ? video.releaseDate.split('-')[0] : '')]. *)
Definition cardYear (year releaseDate : option string) : string :=
  if truthy year then default "" year
  else if truthy releaseDate
       then default "" (split (default "" releaseDate) "-" !! 0%nat)
       else "".

(** *** The list of Emby sources *)

(** How the request for [/api/emby/sources] can end. *)
Inductive SourcesOutcome :=
| SourcesRejected             (* [fetch] or [response.json()] rejects *)
| SourcesNotOk                (* a response with [!response.ok] *)
| SourcesAnswered (sources : option (list EmbySourceOption)).

Record SourceChoice := {
  embySourceOptions : list EmbySourceOption;
  chosen_embyKey : option string
}.

(** [fetchEmbySources] once its request settles; [embyKey] is the key
    of the render the effect belongs to. *)
Definition fetchEmbySources_settled (embyKey : option string)
    (o : SourcesOutcome) (st : SourceChoice) : SourceChoice :=
  match o with
  | SourcesRejected | SourcesNotOk => st
  | SourcesAnswered sources =>
      {| embySourceOptions := default [] sources;
         chosen_embyKey :=
           match sources with
           | Some (first :: _) =>
               if negb (truthy embyKey) then Some (key first)
               else chosen_embyKey st
           | _ => chosen_embyKey st
           end |}
  end.

(** *** The categories of an Emby source *)

Record EmbyView := { view_id : string; view_name : string; view_type : string }.

(** How the request for [/api/emby/views] can end: [data.error] (when
    truthy) and [data.views] of the parsed body, or a rejection. *)
Inductive ViewsOutcome :=
| ViewsRejected
| ViewsAnswered (error : option string) (views : option (list EmbyView)).

Record ViewsState := {
  embyViews : list EmbyView;
  selectedView : string;
  loadingViews : bool;
  hasRestoredViewRef : bool
}.

(** [fetchEmbyViews] once its request settles; [urlView] is
    [searchParams.get('view')]. *)
Definition fetchEmbyViews_settled (urlView : option string) (o : ViewsOutcome)
    (st : ViewsState) : ViewsState :=
  match o with
  | ViewsRejected =>
      {| embyViews := []; selectedView := selectedView st;
         loadingViews := false; hasRestoredViewRef := hasRestoredViewRef st |}
  | ViewsAnswered error views =>
      if truthy error then
        {| embyViews := []; selectedView := selectedView st;
           loadingViews := false; hasRestoredViewRef := hasRestoredViewRef st |}
      else
        {| embyViews := default [] views;
           selectedView :=
             if negb (hasRestoredViewRef st)
                && truthy urlView
                && existsb (fun v => String.eqb (view_id v) (default "" urlView))
                           (default [] views)
             then default "" urlView
             else selectedView st;
           loadingViews := false;
           hasRestoredViewRef := true |}
  end.

(** The views effect from its start: it runs only for Emby with a key,
    and raises [loadingViews] until the request settles. *)
Definition fetchEmbyViews_start (sourceType : string) (embyKey : option string)
    (st : ViewsState) : option ViewsState :=
  if negb (String.eqb sourceType "emby") || negb (truthy embyKey) then None
  else Some {| embyViews := embyViews st; selectedView := selectedView st;
               loadingViews := true;
               hasRestoredViewRef := hasRestoredViewRef st |}.

End LibraryChrome.

(** ** More concrete requests *)

Module MoreSamples.
Import JS Route Policy Samples.

(** A body with a [null] among its rules. *)
Definition holed_body : Value Z :=
  Object [("rules", Array [Object [("keyword", Str "ad")]; Null])].

(** A second, tidy body. *)
Definition tidy_body : Value Z := Object [("rules", Array [tidy_input])].

(** The site while its configuration cannot be loaded. *)
Definition site_down : Env :=
  {| ADMIN_USERNAME := Some "owner"; getConfig := Throw HostError |}.

(** A request that carries no session. *)
Definition anonymous : NextRequest Z :=
  {| getAuthInfoFromCookie := None; json := Normal Null |}.

(** A store that is down. *)
Definition down_db : Db Z :=
  {| kv := ∅; available := false; calls := [] |}.

End MoreSamples.

(** ** A dialog and some category lists *)

Module DialogSamples.
Import Settings.

(** A rule that came from the server without id. *)
Definition legacy_rule : DanmakuFilterRule :=
  {| keyword := "spoiler"; type := regex; enabled := true; id := None |}.

Definition ad_rule : DanmakuFilterRule :=
  {| keyword := "ad"; type := normal; enabled := true; id := Some "17" |}.

(** The dialog with one rule and a keyword typed with blanks around it. *)
Definition typing : State := {|
  config := {| rules := [ad_rule] |}; newKeyword := "  cat "; newType := regex;
  loading := false; saving := false; alerts := []; updates := []
|}.

(** The dialog with nothing but a tab and a space typed. *)
Definition typing_blanks : State :=
  setNewKeyword (String "009" " ") typing.

(** The dialog showing a rule without id next to one with an id. *)
Definition with_legacy : State :=
  setConfig {| rules := [legacy_rule; ad_rule] |} typing.

End DialogSamples.

Module ViewSamples.
Import PrivateLibrary LibraryChrome.

Definition films_view : EmbyView :=
  {| view_id := "v1"; view_name := "Films"; view_type := "movies" |}.

Definition shows_view : EmbyView :=
  {| view_id := "v2"; view_name := "Shows"; view_type := "tvshows" |}.

(** The categories before any load, and after a restore. *)
Definition no_views : ViewsState :=
  {| embyViews := []; selectedView := "all"; loadingViews := true;
     hasRestoredViewRef := false |}.

Definition restored : ViewsState :=
  {| embyViews := [films_view; shows_view]; selectedView := "v2";
     loadingViews := false; hasRestoredViewRef := true |}.

(** A page with Emby on and OpenList off. *)
Definition emby_only : RuntimeConfig :=
  {| OPENLIST_ENABLED := false; EMBY_ENABLED := true |}.

End ViewSamples.

(** * Properties of the danmaku filter route *)

Section RouteProperties.
Import JS Route Policy.
Context {Num : Type} `{NumberOps Num}.

Implicit Types (env : Env) (request : NextRequest Num) (db : Db Num).

Lemma session_user_Some request name :
  session_user request = Some name ->
  exists authInfo,
    getAuthInfoFromCookie request = Some authInfo /\
    auth_username authInfo = Some name /\ name <> "".
Proof.
  unfold session_user.
  destruct (getAuthInfoFromCookie request) as [authInfo|]; [|discriminate].
  destruct (auth_username authInfo) as [[|a s]|] eqn:E; try discriminate.
  intros [= <-]. eauto.
Qed.

(** Both handlers answer a denial with its 401 and leave the store alone. *)
Lemma GET_denied env request db response :
  denial (authorize env request) = Some response ->
  GET env request db = (response, db).
Proof.
  unfold authorize, session_user, user_record, GET, GET_try.
  destruct (getAuthInfoFromCookie request) as [authInfo|]; simpl;
    [|intros [= <-]; reflexivity].
  destruct (auth_username authInfo) as [[|a s]|]; simpl;
    try (intros [= <-]; reflexivity).
  destruct (getConfig env) as [config|e]; simpl; [|discriminate].
  unfold mbind, handler_bind, await; simpl.
  repeat case_bool_decide; try congruence; simpl; try discriminate.
  destruct (find _ _) as [user|]; simpl; [|intros [= <-]; reflexivity].
  destruct (banned user); simpl; [intros [= <-]; reflexivity|discriminate].
Qed.

Lemma POST_denied env request db response :
  denial (authorize env request) = Some response ->
  POST env request db = (response, db).
Proof.
  unfold authorize, session_user, user_record, POST, POST_try.
  destruct (getAuthInfoFromCookie request) as [authInfo|]; simpl;
    [|intros [= <-]; reflexivity].
  destruct (auth_username authInfo) as [[|a s]|]; simpl;
    try (intros [= <-]; reflexivity).
  destruct (getConfig env) as [config|e]; simpl; [|discriminate].
  unfold mbind, handler_bind, await; simpl.
  repeat case_bool_decide; try congruence; simpl; try discriminate.
  destruct (find _ _) as [user|]; simpl; [|intros [= <-]; reflexivity].
  destruct (banned user); simpl; [intros [= <-]; reflexivity|discriminate].
Qed.

(** Past the gate, each handler is its storage part. *)
Lemma GET_try_granted env request name :
  authorize env request = Granted name ->
  GET_try env request = GET_read name.
Proof.
  unfold authorize, session_user, user_record, GET_try.
  destruct (getAuthInfoFromCookie request) as [authInfo|]; simpl; [|discriminate].
  destruct (auth_username authInfo) as [[|a s]|]; simpl; try discriminate.
  destruct (getConfig env) as [config|e]; simpl; [|discriminate].
  unfold mbind at 1, handler_bind, await; simpl.
  destruct (bool_decide (ADMIN_USERNAME env = Some (String a s))) eqn:Eadm.
  - apply bool_decide_eq_true in Eadm. intros [= <-].
    rewrite bool_decide_eq_false_2 by congruence. reflexivity.
  - apply bool_decide_eq_false in Eadm.
    rewrite bool_decide_eq_true_2 by congruence.
    destruct (find _ _) as [user|]; [|discriminate].
    destruct (banned user); [discriminate|]. intros [= <-]. reflexivity.
Qed.

Lemma POST_try_granted env request name :
  authorize env request = Granted name ->
  POST_try env request = POST_write name request.
Proof.
  unfold authorize, session_user, user_record, POST_try.
  destruct (getAuthInfoFromCookie request) as [authInfo|]; simpl; [|discriminate].
  destruct (auth_username authInfo) as [[|a s]|]; simpl; try discriminate.
  destruct (getConfig env) as [config|e]; simpl; [|discriminate].
  unfold mbind at 1, handler_bind, await; simpl.
  destruct (bool_decide (ADMIN_USERNAME env = Some (String a s))) eqn:Eadm.
  - apply bool_decide_eq_true in Eadm. intros [= <-].
    rewrite bool_decide_eq_false_2 by congruence. reflexivity.
  - apply bool_decide_eq_false in Eadm.
    rewrite bool_decide_eq_true_2 by congruence.
    destruct (find _ _) as [user|]; [|discriminate].
    destruct (banned user); [discriminate|]. intros [= <-]. reflexivity.
Qed.


(** With no username listed twice, any listed record is the caller's
    record. *)
Lemma user_record_member config name user :
  NoDup (username <$> Users (UserConfig config)) ->
  In user (Users (UserConfig config)) ->
  username user = name ->
  user_record config name = Some user.
Proof.
  unfold user_record. intros Hnd Hin <-.
  induction (Users (UserConfig config)) as [|u us IH]; simpl in *; [contradiction|].
  apply NoDup_cons in Hnd as [Hu Hnd].
  destruct Hin as [->|Hin].
  - rewrite String.eqb_refl. reflexivity.
  - destruct (String.eqb_spec (username u) (username user)) as [E|_].
    + exfalso. apply Hu. rewrite E. apply list_elem_of_fmap.
      exists user. split; [reflexivity|]. apply list_elem_of_In, Hin.
    + apply IH; assumption.
Qed.


(** C2: a POST whose body parsed to anything but an object with an array
    under [rules] (so also [null], a falsy value, an object without
    [rules]) leaves the store exactly as it was, [setDanmakuFilterConfig]
    never called; and when the caller passes the authorization gate the
    answer is the 400 validation error. *)
Theorem malformed_body_rejected env request db config :
  json request = Normal config ->
  ~ has_rules_array config ->
  (POST env request db).2 = db /\
  (forall name,
      authorize env request = Granted name ->
      (POST env request db).1 =
        NextResponse_json (ErrorBody "配置格式错误") (Some 400%Z)).
Proof.
  intros Hjson Hbad.
  assert (Hwrite : forall name,
    POST_write name request db =
      (Normal (NextResponse_json (ErrorBody "配置格式错误") (Some 400%Z)), db)).
  { intros name. unfold POST_write, mbind, handler_bind, await.
    rewrite Hjson. destruct (ToBoolean config) eqn:Etruthy; simpl; [|reflexivity].
    destruct config as [| |b|n|s|elems|props]; simpl in *; try discriminate;
      try reflexivity.
    destruct (own_property props "rules") as [[]|] eqn:Eprop; simpl;
      try reflexivity.
    exfalso. apply Hbad. eexists _, _. split; [reflexivity|exact Eprop]. }
  destruct (denial (Num:=Num) (authorize env request)) as [response|] eqn:Eden.
  - rewrite (POST_denied _ _ _ _ Eden). split; [reflexivity|].
    intros name E. rewrite E in Eden. discriminate.
  - destruct (authorize env request) as [| | | |name] eqn:Eauth;
      try discriminate.
    + split; [|discriminate].
      unfold POST, POST_try. unfold authorize in Eauth.
      unfold session_user in Eauth.
      destruct (getAuthInfoFromCookie request) as [authInfo|]; [|discriminate].
      destruct (auth_username authInfo) as [[|a s]|]; try discriminate.
      destruct (getConfig env) as [c|e]; [|reflexivity].
      destruct (bool_decide _); [discriminate|].
      destruct (user_record c _) as [u|]; [|discriminate].
      destruct (banned u); discriminate.
    + unfold POST. rewrite (POST_try_granted _ _ _ Eauth), Hwrite.
      split; [reflexivity|]. intros name' [= <-]. reflexivity.
Qed.

(** C5: for an authorized username whose [getDanmakuFilterConfig] call
    returns [null], GET answers with status 200 and the body
    [{rules: []}]. *)
Theorem GET_without_config_is_empty env request db name :
  authorize env request = Granted name ->
  (db_getDanmakuFilterConfig name db).1 = Normal None ->
  (GET env request db).1 =
    {| status := 200%Z; body := ConfigBody {| rules := [] |} |}.
Proof.
  intros Hauth Hnull. unfold GET. rewrite (GET_try_granted _ _ _ Hauth).
  unfold GET_read, mbind, handler_bind.
  destruct (db_getDanmakuFilterConfig name db) as [[[c|]|e] db'];
    simpl in Hnull; try discriminate. reflexivity.
Qed.

(** *** Normalization of the rules *)

Lemma Get_field (v x : Value Num) (k k' : string) :
  Get v k = Normal x -> Get v k' = Normal (field v k').
Proof. unfold field. destruct v; simpl; try discriminate; reflexivity. Qed.

Lemma ToString_Str_or_empty (s : string) :
  ToString (Num:=Num) (or_else (Str s) (Str "")) = Normal s.
Proof.
  unfold or_else. simpl. destruct (String.eqb_spec s ""); subst; reflexivity.
Qed.

Lemma validate_rule_convertible (rule : Value Num) :
  convertible rule ->
  exists r, validate_rule rule = Normal r /\ stored_as rule r.
Proof.
  intros (kw & text & Hkw & Htext).
  pose proof (Get_field _ _ _ "keyword" Hkw) as Gk.
  pose proof (Get_field _ _ _ "type" Hkw) as Gt.
  pose proof (Get_field _ _ _ "enabled" Hkw) as Ge.
  pose proof (Get_field _ _ _ "id" Hkw) as Gi.
  assert (kw = field rule "keyword") as -> by congruence.
  eexists. split.
  - unfold validate_rule. rewrite Gk. simpl. rewrite Htext. simpl.
    rewrite Gt, Ge, Gi. reflexivity.
  - unfold stored_as; simpl. repeat split.
    + exact Htext.
    + intros F. unfold or_else in Htext. rewrite F in Htext.
      simpl in Htext. congruence.
    + intros s E. rewrite E, ToString_Str_or_empty in Htext. congruence.
    + intros ->. reflexivity.
    + intros E. destruct (field rule "type") as [| | | |t| |]; try reflexivity.
      destruct (String.eqb_spec t "regex") as [->|_]; [congruence|].
      destruct (String.eqb_spec t "normal") as [->|_]; reflexivity.
    + unfold or_else. intros ->. reflexivity.
    + unfold or_else. intros ->. reflexivity.
Qed.

Lemma map_throwing_convertible (input_rules : list (Value Num)) :
  Forall convertible input_rules ->
  exists stored,
    map_throwing validate_rule input_rules = Normal stored /\
    Forall2 (fun rule r => validate_rule rule = Normal r /\ stored_as rule r)
            input_rules stored.
Proof.
  induction 1 as [|rule rest Hrule _ (stored & Hmap & Hall)].
  - exists []. split; [reflexivity|constructor].
  - destruct (validate_rule_convertible _ Hrule) as (r & Hr & Hs).
    exists (r :: stored). split.
    + simpl. rewrite Hr. simpl. rewrite Hmap. reflexivity.
    + constructor; [split; assumption|assumption].
Qed.

(** A well-formed body from an authorized caller, every rule getting
    through the callback, the store up: one write, and 200. *)
Lemma POST_stores env request db name props input_rules stored :
  authorize env request = Granted name ->
  json request = Normal (Object props) ->
  own_property props "rules" = Some (Array input_rules) ->
  map_throwing validate_rule input_rules = Normal stored ->
  available db = true ->
  (POST env request db).1 = NextResponse_json (SuccessBody true) None /\
  kv (POST env request db).2 = <[name := {| rules := stored |}]> (kv db) /\
  calls (POST env request db).2 =
    SetCall name {| rules := stored |} :: calls db.
Proof.
  intros Hauth Hjson Hrules Hmap Hup.
  unfold POST. rewrite (POST_try_granted _ _ _ Hauth).
  unfold POST_write, mbind, handler_bind, await. rewrite Hjson. simpl.
  rewrite Hrules. simpl. rewrite Hmap.
  unfold db_setDanmakuFilterConfig. rewrite Hup. simpl. auto.
Qed.

(** C3, as the code has it.  The callback, on any one input rule that
    is readable (not [null]) and has a keyword [String] accepts, returns a
    rule made from that input alone: the type is [regex] when the input
    type is exactly [regex] and [normal] otherwise; the keyword is
    [String(keyword || '')], hence empty for a falsy keyword and the
    keyword itself for a string; [enabled] is the truthiness of the
    input; a truthy [id] is kept and a falsy one becomes undefined.  And
    for a POST from an authorized caller whose body holds an array under
    [rules], with the store up and every rule of the array such a rule,
    the handler answers 200 and stores one rule per input rule, each the
    result of the callback on that input. *)
Theorem rules_normalized_one_by_one
    env request db name props input_rules :
  authorize env request = Granted name ->
  json request = Normal (Object props) ->
  own_property props "rules" = Some (Array input_rules) ->
  available db = true ->
  Forall convertible input_rules ->
  (forall rule : Value Num,
      convertible rule ->
      exists r, validate_rule rule = Normal r /\ stored_as rule r) /\
  exists stored,
    (POST env request db).1 = NextResponse_json (SuccessBody true) None /\
    kv (POST env request db).2 !! name = Some {| rules := stored |} /\
    Forall2 (fun rule r => validate_rule rule = Normal r /\ stored_as rule r)
            input_rules stored.
Proof.
  intros Hauth Hjson Hrules Hup Hconv.
  split; [exact validate_rule_convertible|].
  destruct (map_throwing_convertible _ Hconv) as (stored & Hmap & Hall).
  destruct (POST_stores _ _ _ _ _ _ _ Hauth Hjson Hrules Hmap Hup)
    as (Hresp & Hkv & _).
  exists stored. split; [exact Hresp|]. split; [|exact Hall].
  rewrite Hkv. apply lookup_insert_eq.
Qed.

(** C4: normalization is idempotent.  Input rules that carry the fields
    of rules in normalized form (a string keyword, a type among [normal]
    and [regex], a boolean [enabled], an id that is a non-empty string or
    undefined) are mapped to exactly those rules. *)
Theorem normalization_idempotent
    (inputs : list (Value Num)) (rs : list (DanmakuFilterRule Num)) :
  Forall2 reads_as inputs rs ->
  Forall normalized rs ->
  map_throwing validate_rule inputs = Normal rs.
Proof.
  induction 1 as [|v r inputs rs (Hk & Ht & He & Hi) _ IH];
    intros Hnorm; [reflexivity|].
  apply Forall_cons in Hnorm as [[Htype Hid] Hrest].
  simpl. rewrite (IH Hrest).
  unfold validate_rule. rewrite Hk. simpl.
  rewrite ToString_Str_or_empty. simpl. rewrite Ht, He, Hi. simpl.
  destruct r as [k t e i]; simpl in *. do 2 f_equal. f_equal.
  - destruct Htype as [->| ->]; reflexivity.
  - destruct Hid as [->|(s & Hs & ->)]; [reflexivity|].
    unfold or_else; simpl.
    destruct (String.eqb_spec s ""); [contradiction|reflexivity].
Qed.

(** C10: in the configuration a POST stores, the rule made from an
    input rule has an undefined [id] whenever the input's [id] is falsy
    (absent, [null], the empty string, [false], or a falsy number such as
    0), and the input's [id], unchanged, whenever that is truthy. *)
Theorem falsy_id_stored_undefined
    env request db name props input_rules :
  authorize env request = Granted name ->
  json request = Normal (Object props) ->
  own_property props "rules" = Some (Array input_rules) ->
  available db = true ->
  Forall convertible input_rules ->
  exists stored,
    kv (POST env request db).2 !! name = Some {| rules := stored |} /\
    Forall2 id_kept_or_dropped input_rules stored.
Proof.
  intros Hauth Hjson Hrules Hup Hconv.
  destruct (map_throwing_convertible _ Hconv) as (stored & Hmap & Hall).
  destruct (POST_stores _ _ _ _ _ _ _ Hauth Hjson Hrules Hmap Hup)
    as (_ & Hkv & _).
  exists stored. split; [rewrite Hkv; apply lookup_insert_eq|].
  eapply Forall2_impl; [exact Hall|].
  intros rule r (_ & _ & _ & _ & _ & _ & _ & Hkeep & Hdrop).
  repeat split; [exact Hkeep|exact Hdrop|].
  intros Hfalsy. apply Hdrop.
  destruct Hfalsy as [->|[->|[->|[->|(n & -> & Hn)]]]]; simpl; auto.
Qed.

End RouteProperties.

(** ** The route on concrete requests *)

Section RouteExamples.
Import JS Route Policy Samples.


Lemma malformed_body_rejected_witness :
  (json (request_of "alice" (Normal Null)) = Normal Null /\
   ~ has_rules_array (Null : Value Z)) /\
  (POST site (request_of "alice" (Normal Null)) empty_db).2 = empty_db /\
  (forall name,
      authorize site (request_of "alice" (Normal Null)) = Granted name ->
      (POST site (request_of "alice" (Normal Null)) empty_db).1 =
        NextResponse_json (ErrorBody "配置格式错误") (Some 400%Z)).
Proof.
  assert (Hbad : ~ has_rules_array (Null : Value Z)).
  { intros (props & input_rules & E & _). discriminate E. }
  split; [split; [reflexivity|exact Hbad]|].
  apply (malformed_body_rejected site (request_of "alice" (Normal Null))
           empty_db Null); [reflexivity|exact Hbad].
Defined.

Lemma GET_without_config_witness :
  (authorize site (request_of "alice" (Normal Null)) = Granted "alice" /\
   (db_getDanmakuFilterConfig "alice" empty_db).1 = Normal None) /\
  (GET site (request_of "alice" (Normal Null)) empty_db).1 =
    {| status := 200%Z; body := ConfigBody {| rules := [] |} |}.
Proof.
  split; [split; reflexivity|].
  apply (GET_without_config_is_empty site (request_of "alice" (Normal Null))
           empty_db "alice"); reflexivity.
Defined.

(** A keyword that is not a string is not emptied: the number 5 is
    stored as the string ["5"]. *)
Lemma non_string_keyword_not_emptied :
  field (Object [("keyword", Number 5%Z)] : Value Z) "keyword" = Number 5%Z /\
  validate_rule (Object [("keyword", Number 5%Z)] : Value Z) =
    Normal {| keyword := "5"; type := "normal"; enabled := false;
              id := Undefined |} /\
  ~ (forall (rule : Value Z) (r : DanmakuFilterRule Z),
        validate_rule rule = Normal r ->
        (forall s, field rule "keyword" <> Str s) ->
        keyword r = "").
Proof.
  split; [reflexivity|]. split; [reflexivity|].
  intros Hclaim.
  specialize (Hclaim (Object [("keyword", Number 5%Z)]) _ eq_refl).
  simpl in Hclaim. discriminate Hclaim. intros s. discriminate.
Qed.

Lemma loose_rules_convertible : Forall convertible loose_rules.
Proof.
  repeat constructor; eexists _, _; split; reflexivity.
Defined.

Lemma rules_normalized_witness :
  (authorize site (request_of "alice" (Normal loose_body)) = Granted "alice" /\
   own_property [("rules", Array loose_rules)] "rules"
     = Some (Array loose_rules) /\
   available empty_db = true /\
   Forall convertible loose_rules) /\
  exists stored,
    (POST site (request_of "alice" (Normal loose_body)) empty_db).1
      = NextResponse_json (SuccessBody true) None /\
    kv (POST site (request_of "alice" (Normal loose_body)) empty_db).2
      !! "alice" = Some {| rules := stored |} /\
    Forall2 (fun rule r => validate_rule rule = Normal r /\ stored_as rule r)
            loose_rules stored.
Proof.
  split; [split; [reflexivity|split; [reflexivity|split;
    [reflexivity|exact loose_rules_convertible]]]|].
  apply (proj2 (rules_normalized_one_by_one site
           (request_of "alice" (Normal loose_body)) empty_db "alice"
           [("rules", Array loose_rules)] loose_rules
           eq_refl eq_refl eq_refl eq_refl loose_rules_convertible)).
Defined.

Lemma normalization_idempotent_witness :
  (Forall2 reads_as [tidy_input] [tidy_rule] /\
   Forall normalized [tidy_rule]) /\
  map_throwing validate_rule [tidy_input] = Normal [tidy_rule].
Proof.
  assert (Hreads : Forall2 reads_as [tidy_input] [tidy_rule]).
  { apply Forall2_cons_2; [|apply Forall2_nil_2].
    repeat split. }
  assert (Hnorm : Forall normalized [tidy_rule]).
  { apply Forall_cons_2; [|apply Forall_nil_2]. split.
    - right. reflexivity.
    - right. exists "r1". split; [discriminate|reflexivity]. }
  split; [split; assumption|].
  apply (normalization_idempotent [tidy_input] [tidy_rule] Hreads Hnorm).
Defined.

Lemma falsy_id_stored_undefined_witness :
  (authorize site (request_of "alice" (Normal loose_body)) = Granted "alice" /\
   own_property [("rules", Array loose_rules)] "rules"
     = Some (Array loose_rules) /\
   available empty_db = true /\
   Forall convertible loose_rules) /\
  exists stored,
    kv (POST site (request_of "alice" (Normal loose_body)) empty_db).2
      !! "alice" = Some {| rules := stored |} /\
    Forall2 id_kept_or_dropped loose_rules stored.
Proof.
  split; [split; [reflexivity|split; [reflexivity|split;
    [reflexivity|exact loose_rules_convertible]]]|].
  apply (falsy_id_stored_undefined site
           (request_of "alice" (Normal loose_body)) empty_db "alice"
           [("rules", Array loose_rules)] loose_rules);
    try reflexivity.
  exact loose_rules_convertible.
Defined.

End RouteExamples.

(** * Properties of the private library page *)

Section LibraryProperties.
Import PrivateLibrary Traces.
Local Open Scope list_scope.

Implicit Types (st : State) (d : Deps) (c : nat) (o : Outcome).

(** *** The source parameter *)

Lemma split_without_separator (s : string) (sep : ascii) :
  includes s sep = false -> split s sep = [s].
Proof.
  induction s as [|a s IH]; simpl; [reflexivity|].
  destruct (Ascii.eqb a sep); simpl; [discriminate|].
  intros Hs. rewrite (IH Hs). reflexivity.
Qed.

(** C9, as the code has it: with more than one Emby source listed, a
    selection of Emby with a non-empty key free of colons is written to
    the URL as [emby:<key>], and parsing that value gives back Emby and
    the key. *)
Theorem source_param_round_trip
    (k : string) (embySourceOptions : list EmbySourceOption) :
  k <> "" ->
  includes k ":" = false ->
  (1 < length embySourceOptions)%nat ->
  sourceParam "emby" (Some k) embySourceOptions = ("emby:" ++ k)%string /\
  parseSourceParam (Some (sourceParam "emby" (Some k) embySourceOptions)) =
    {| parsed_sourceType := "emby"; parsed_embyKey := Some k |}.
Proof.
  intros Hk Hcolon Hmany.
  assert (E : sourceParam "emby" (Some k) embySourceOptions
              = ("emby:" ++ k)%string).
  { unfold sourceParam. simpl.
    destruct k; [contradiction|]. simpl.
    apply Nat.ltb_lt in Hmany. rewrite Hmany. reflexivity. }
  split; [exact E|]. rewrite E.
  unfold parseSourceParam. simpl. change ("" +:+ k) with k.
  rewrite (split_without_separator _ _ Hcolon). reflexivity.
Qed.

(** *** One fetch, from trigger to commit *)

Lemma abort_current_length st :
  length (signals (abort_current st)) = length (signals st).
Proof.
  unfold abort_current. destruct (abortControllerRef st); simpl;
    [apply length_insert|reflexivity].
Qed.

Lemma abort_current_pending st : pending (abort_current st) = pending st.
Proof. unfold abort_current. destruct (abortControllerRef st); reflexivity. Qed.

Lemma abort_current_ref st :
  abortControllerRef (abort_current st) = abortControllerRef st.
Proof. unfold abort_current. destruct (abortControllerRef st) eqn:E; simpl; auto. Qed.

Lemma abort_current_committed st :
  committed (abort_current st) = committed st.
Proof. unfold abort_current. destruct (abortControllerRef st); reflexivity. Qed.

(** With the source configured, the effect takes neither early return. *)
Lemma configured_guards runtimeConfig d :
  configured runtimeConfig d ->
  String.eqb (sourceType d) "openlist"
    && negb (OPENLIST_ENABLED runtimeConfig) = false /\
  String.eqb (sourceType d) "emby"
    && (negb (EMBY_ENABLED runtimeConfig) || negb (truthy (embyKey d))) = false.
Proof.
  intros [Hopen Hemby]. split.
  - destruct (String.eqb_spec (sourceType d) "openlist") as [E|_];
      [rewrite (Hopen E)|]; reflexivity.
  - destruct (String.eqb_spec (sourceType d) "emby") as [E|_]; [|reflexivity].
    destruct (Hemby E) as [-> ->]. reflexivity.
Qed.

(** A configured, successful page: page 1 replaces the list, any other
    page appends to it; the flags are cleared and [hasMore] is set. *)
Lemma fetch_page_commits runtimeConfig st d data :
  configured runtimeConfig d ->
  successful data ->
  videos (fetch_page runtimeConfig st (d, data)) =
    (if (page d =? 1)%Z then items data else videos st ++ items data) /\
  hasMore (fetch_page runtimeConfig st (d, data)) =
    (number_or (data_page data) (page d)
       <? number_or (data_totalPages data) 1)%Z.
Proof.
  intros Hconf Hok. destruct (configured_guards _ _ Hconf) as [G1 G2].
  unfold fetch_page, run. simpl. unfold fetchVideos. rewrite G1, G2.
  unfold fetchVideos_resume.
  rewrite abort_current_length, abort_current_pending.
  set (c := length (signals st)).
  assert (Hsig : (signals (abort_current st) ++ [false]) !! c = Some false).
  { rewrite lookup_app_r by (rewrite abort_current_length; reflexivity).
    rewrite abort_current_length. unfold c. rewrite Nat.sub_diag. reflexivity. }
  destruct (page d =? 1)%Z; simpl; rewrite lookup_insert_eq; simpl;
    unfold aborted; simpl; rewrite Hsig; simpl;
    unfold successful in Hok; rewrite Hok; simpl;
    pose proof (abort_current_committed st) as Hc;
    apply (f_equal c_videos) in Hc; simpl in Hc; rewrite ?Hc;
    split; reflexivity.
Qed.

(** C7, as the code has it: when the call filed under [c] resumes with
    its signal not aborted and a response that carries no error, [hasMore]
    becomes [(data.page || page) < (data.totalPages || 1)], [page] being
    the page the call asked for: a reported page of 0, like none, gives
    way to the requested page, and a reported total of 0, like none, to 1.
    So for a response that reports a page [p] other than 0 and a total
    [t], [hasMore] becomes true if [p < t] and false if [p >= t]. *)
Theorem hasMore_compares_effective_pages c request data st :
  pending st !! c = Some request ->
  aborted st c = false ->
  successful data ->
  hasMore (fetchVideos_resume c (Answered data) st) =
    (number_or (data_page data) (request_page request)
       <? number_or (data_totalPages data) 1)%Z /\
  (forall p t : Z,
      data_page data = Some p ->
      p <> 0%Z ->
      data_totalPages data = Some t ->
      ((p < t)%Z -> hasMore (fetchVideos_resume c (Answered data) st) = true) /\
      ((p >= t)%Z -> hasMore (fetchVideos_resume c (Answered data) st) = false)).
Proof.
  intros Hpending Hlive Hok.
  assert (E : hasMore (fetchVideos_resume c (Answered data) st) =
                (number_or (data_page data) (request_page request)
                   <? number_or (data_totalPages data) 1)%Z).
  { unfold fetchVideos_resume. rewrite Hpending.
    unfold aborted in *. simpl. rewrite Hlive.
    unfold successful in Hok. rewrite Hok.
    destruct (isInitial request); reflexivity. }
  split; [exact E|].
  intros p t Hp Hp0 Ht. rewrite E, Hp, Ht. unfold number_or.
  rewrite (proj2 (Z.eqb_neq p 0) Hp0).
  destruct (Z.eqb_spec t 0); split; intros; lia.
Qed.

(** *** Pages in a row *)

Lemma fetch_pages_snoc runtimeConfig st pages p :
  fetch_pages runtimeConfig st (pages ++ [p]) =
  fetch_page runtimeConfig (fetch_pages runtimeConfig st pages) p.
Proof. unfold fetch_pages. rewrite fold_left_app. reflexivity. Qed.

Lemma later_pages_append runtimeConfig st pages :
  Forall (fun p => page p.1 <> 1%Z) pages ->
  Forall (fun p => configured runtimeConfig p.1 /\ successful p.2) pages ->
  videos (fetch_pages runtimeConfig st pages) =
    videos st ++ concat ((fun p => items p.2) <$> pages).
Proof.
  revert st. induction pages as [|[d data] pages IH]; intros st Hlater Hall.
  - simpl. rewrite app_nil_r. reflexivity.
  - apply Forall_cons in Hlater as [Hd Hlater].
    apply Forall_cons in Hall as [[Hconf Hok] Hall].
    change (fetch_pages runtimeConfig st ((d, data) :: pages))
      with (fetch_pages runtimeConfig (fetch_page runtimeConfig st (d, data)) pages).
    rewrite (IH _ Hlater Hall).
    destruct (fetch_page_commits runtimeConfig st d data Hconf Hok) as [-> _].
    simpl in Hd. rewrite (proj2 (Z.eqb_neq _ _) Hd).
    simpl. rewrite app_assoc. reflexivity.
Qed.

(** C8: let a first page (page number 1) and then further pages (page
    numbers other than 1) be fetched one after the other, each from a
    configured source and each answered without error.  The first
    response replaces the list whatever it held; each later response
    appends its items to the list as it stood; so the list ends up as the
    items of all the pages in order, and its length is the sum of the
    pages' item counts. *)
Theorem pages_accumulate runtimeConfig st
    (first : Deps * ListData) (rest : list (Deps * ListData)) :
  page first.1 = 1%Z ->
  Forall (fun p => page p.1 <> 1%Z) rest ->
  Forall (fun p => configured runtimeConfig p.1 /\ successful p.2)
         (first :: rest) ->
  videos (fetch_page runtimeConfig st first) = items first.2 /\
  (forall done next more,
      rest = done ++ next :: more ->
      videos (fetch_pages runtimeConfig st (first :: done ++ [next])) =
        videos (fetch_pages runtimeConfig st (first :: done))
          ++ items next.2) /\
  videos (fetch_pages runtimeConfig st (first :: rest)) =
    concat ((fun p => items p.2) <$> first :: rest) /\
  length (videos (fetch_pages runtimeConfig st (first :: rest))) =
    sum_list_with (fun p => length (items p.2)) (first :: rest).
Proof.
  intros Hfirst Hlater Hall.
  apply Forall_cons in Hall as [[Hconf Hok] Hall].
  destruct first as [d data]; simpl in Hfirst, Hconf, Hok.
  assert (H1 : videos (fetch_page runtimeConfig st (d, data)) = items data).
  { destruct (fetch_page_commits runtimeConfig st d data Hconf Hok) as [-> _].
    rewrite Hfirst. reflexivity. }
  assert (Hall' : videos (fetch_pages runtimeConfig st ((d, data) :: rest)) =
                  concat ((fun p => items p.2) <$> (d, data) :: rest)).
  { change (fetch_pages runtimeConfig st ((d, data) :: rest))
      with (fetch_pages runtimeConfig (fetch_page runtimeConfig st (d, data)) rest).
    rewrite (later_pages_append _ _ _ Hlater Hall), H1. reflexivity. }
  split; [exact H1|]. split; [|split; [exact Hall'|]].
  - intros done next more ->.
    rewrite app_comm_cons, fetch_pages_snoc.
    apply Forall_app in Hlater as [_ Hnext].
    apply Forall_app in Hall as [_ Hnext'].
    apply Forall_cons in Hnext as [Hn _].
    apply Forall_cons in Hnext' as [[Hc Hs] _].
    destruct next as [dn datan]; simpl in Hn, Hc, Hs.
    destruct (fetch_page_commits runtimeConfig
                (fetch_pages runtimeConfig st ((d, data) :: done))
                dn datan Hc Hs) as [-> _].
    rewrite (proj2 (Z.eqb_neq _ _) Hn). reflexivity.
  - rewrite Hall'. clear. induction ((d, data) :: rest) as [|q qs IH];
      simpl; [reflexivity|]. rewrite length_app. f_equal. exact IH.
Qed.

(** *** Cancellation *)

Lemma step_keeps_heap runtimeConfig st e :
  heap_event e = false ->
  signals (step runtimeConfig st e) = signals st /\
  pending (step runtimeConfig st e) = pending st /\
  abortControllerRef (step runtimeConfig st e) = abortControllerRef st.
Proof.
  destruct e; simpl; try discriminate; intros _; auto;
    unfold initFromUrl, resetOnSource, resetOnView, intersecting;
    repeat match goal with |- context [if ?b then _ else _] => destruct b end;
    auto.
Qed.

Lemma resume_heap c o st :
  signals (fetchVideos_resume c o st) = signals st /\
  abortControllerRef (fetchVideos_resume c o st) = abortControllerRef st /\
  forall c', is_Some (pending (fetchVideos_resume c o st) !! c') ->
             is_Some (pending st !! c').
Proof.
  unfold fetchVideos_resume.
  destruct (pending st !! c) as [request|] eqn:E; [|auto].
  assert (Hdel : forall c', is_Some (delete c (pending st) !! c') ->
                            is_Some (pending st !! c')).
  { intros c'. rewrite lookup_delete.
    case_decide; [intros [? [=]]|auto]. }
  unfold aborted; simpl.
  destruct (default false (signals st !! c)); [auto|].
  destruct o as [| | |data]; try destruct (truthy (data_error data));
    destruct (isInitial request); simpl; auto.
Qed.

Lemma aborted_after_abort st c :
  abortControllerRef st = Some c ->
  (c < length (signals st))%nat ->
  aborted (abort_current st) c = true.
Proof.
  intros Href Hc. unfold aborted, abort_current. rewrite Href. simpl.
  rewrite list_lookup_insert_eq by assumption. reflexivity.
Qed.

Lemma aborted_abort_mono st c :
  aborted st c = true -> aborted (abort_current st) c = true.
Proof.
  unfold aborted, abort_current.
  destruct (abortControllerRef st) as [r|]; simpl; [|auto].
  destruct (decide (r = c)) as [->|Hne].
  - destruct (signals st !! c) eqn:E; [|discriminate].
    intros _. rewrite list_lookup_insert_eq; [reflexivity|].
    eapply lookup_lt_Some; eassumption.
  - rewrite list_lookup_insert_ne by assumption. auto.
Qed.

Lemma aborted_abort_inv st c :
  aborted (abort_current st) c = false -> aborted st c = false.
Proof.
  intros H. destruct (aborted st c) eqn:E; [|reflexivity].
  rewrite (aborted_abort_mono _ _ E) in H. discriminate.
Qed.

Lemma well_formed_initial : well_formed initial.
Proof.
  split; [|split]; simpl; intros c.
  - rewrite lookup_empty. intros [? [=]].
  - rewrite lookup_empty. intros [? [=]].
  - discriminate.
Qed.

Lemma abort_current_well_formed st :
  well_formed st -> well_formed (abort_current st).
Proof.
  intros (Hlt & Hlive & Hlast). split; [|split]; intros c.
  - rewrite abort_current_pending, abort_current_length. apply Hlt.
  - rewrite abort_current_pending. intros Hp Ha.
    apply aborted_abort_inv in Ha.
    rewrite abort_current_ref. apply Hlive; assumption.
  - rewrite abort_current_length, abort_current_ref. apply Hlast.
Qed.

Lemma fetchVideos_well_formed runtimeConfig d st :
  well_formed st -> well_formed (fetchVideos runtimeConfig d st).
Proof.
  intros Hwf. pose proof (abort_current_well_formed _ Hwf) as Hwf'.
  pose proof Hwf' as (Hlt & Hlive & Hlast).
  unfold fetchVideos.
  destruct (_ && _); [exact Hwf'|]. destruct (_ && _); [exact Hwf'|].
  set (st' := abort_current st) in *.
  assert (Hshape : forall x : State,
    signals x = signals st' ++ [false] ->
    pending x = <[length (signals st') :=
                    {| isInitial := (page d =? 1)%Z; request_page := page d;
                       endpoint := endpoint_of d |}]> (pending st') ->
    abortControllerRef x = Some (length (signals st')) ->
    well_formed x).
  { intros x Hs Hp Hr. split; [|split]; intros c.
    - rewrite Hs, Hp, length_app, lookup_insert. simpl.
      case_decide; [lia|]. intros Hc. apply Hlt in Hc. lia.
    - rewrite Hp, Hr, lookup_insert. unfold aborted. rewrite Hs.
      case_decide; [intros; congruence|].
      intros Hc Ha. exfalso. pose proof (Hlt _ Hc) as Hlen.
      rewrite lookup_app_l in Ha by assumption.
      pose proof (Hlive _ Hc Ha) as Href.
      assert (Hst : abortControllerRef st = Some c).
      { unfold st' in Href. rewrite abort_current_ref in Href. exact Href. }
      unfold st' in Hlen. rewrite abort_current_length in Hlen.
      pose proof (aborted_after_abort _ _ Hst Hlen) as Hab.
      unfold aborted in Hab. fold st' in Hab. congruence.
    - rewrite Hr, Hs, length_app. simpl. intros [= <-]. lia. }
  destruct (page d =? 1)%Z; apply Hshape; reflexivity.
Qed.

Lemma resume_well_formed c o st :
  well_formed st -> well_formed (fetchVideos_resume c o st).
Proof.
  intros (Hlt & Hlive & Hlast).
  destruct (resume_heap c o st) as (Hs & Hr & Hp).
  split; [|split]; intros c'; unfold aborted; rewrite ?Hs, ?Hr; auto.
Qed.

Lemma step_well_formed runtimeConfig st e :
  well_formed st -> well_formed (step runtimeConfig st e).
Proof.
  intros Hwf. destruct (heap_event e) eqn:He.
  - destruct e; try discriminate; simpl.
    + apply fetchVideos_well_formed, Hwf.
    + apply abort_current_well_formed, Hwf.
    + apply resume_well_formed, Hwf.
  - destruct (step_keeps_heap runtimeConfig st e He) as (Hs & Hp & Hr).
    destruct Hwf as (Hlt & Hlive & Hlast).
    split; [|split]; intros c; unfold aborted; rewrite ?Hs, ?Hp, ?Hr; auto.
Qed.

Lemma run_well_formed runtimeConfig events st :
  well_formed st -> well_formed (run runtimeConfig st events).
Proof.
  revert st. induction events as [|e events IH]; intros st Hwf; [exact Hwf|].
  apply IH, step_well_formed, Hwf.
Qed.








End LibraryProperties.

(** ** The page on concrete runs *)

Section LibraryExamples.
Import PrivateLibrary Traces.
Local Open Scope list_scope.

(** With a single Emby source listed the key is left out of the URL, and
    parsing gives no key back. *)
Lemma single_source_drops_key :
  sourceParam "emby" (Some "emby1") [{| key := "emby1"; name := "Home" |}]
    = "emby" /\
  parseSourceParam
    (Some (sourceParam "emby" (Some "emby1")
             [{| key := "emby1"; name := "Home" |}]))
    = {| parsed_sourceType := "emby"; parsed_embyKey := None |} /\
  ~ (forall (k : string) (embySourceOptions : list EmbySourceOption),
        k <> "" ->
        includes k ":" = false ->
        parseSourceParam (Some (sourceParam "emby" (Some k) embySourceOptions))
          = {| parsed_sourceType := "emby"; parsed_embyKey := Some k |}).
Proof.
  split; [reflexivity|]. split; [reflexivity|].
  intros Hclaim.
  specialize (Hclaim "emby1" [{| key := "emby1"; name := "Home" |}]).
  discriminate Hclaim; [discriminate|reflexivity].
Qed.

Lemma source_param_round_trip_witness :
  ("emby1" <> "" /\ includes "emby1" ":" = false /\
   (1 < length two_sources)%nat) /\
  sourceParam "emby" (Some "emby1") two_sources = "emby:emby1" /\
  parseSourceParam (Some (sourceParam "emby" (Some "emby1") two_sources)) =
    {| parsed_sourceType := "emby"; parsed_embyKey := Some "emby1" |}.
Proof.
  assert (Hk : "emby1" <> "") by discriminate.
  assert (Hmany : (1 < length two_sources)%nat) by (simpl; lia).
  split; [split; [exact Hk|split; [reflexivity|exact Hmany]]|].
  apply (source_param_round_trip "emby1" two_sources Hk eq_refl Hmany).
Defined.

(** A response that reports page 0 of 1 leaves [hasMore] false, though
    0 is less than 1: the requested page, 1, stands in for the 0. *)
Lemma reported_page_zero_gives_way :
  pending first_page_requested !! 0%nat = Some first_request /\
  aborted first_page_requested 0 = false /\
  successful (answer [film "a"] 0 1) /\
  (0 < 1)%Z /\
  hasMore (fetchVideos_resume 0 (Answered (answer [film "a"] 0 1))
             first_page_requested) = false /\
  ~ (forall c request data st (p t : Z),
        pending st !! c = Some request ->
        aborted st c = false ->
        successful data ->
        data_page data = Some p ->
        data_totalPages data = Some t ->
        ((p < t)%Z ->
           hasMore (fetchVideos_resume c (Answered data) st) = true) /\
        ((p >= t)%Z ->
           hasMore (fetchVideos_resume c (Answered data) st) = false)).
Proof.
  split; [reflexivity|]. split; [reflexivity|]. split; [reflexivity|].
  split; [lia|]. split; [reflexivity|].
  intros Hclaim.
  destruct (Hclaim 0%nat first_request (answer [film "a"] 0 1)
              first_page_requested 0%Z 1%Z
              eq_refl eq_refl eq_refl eq_refl eq_refl) as [Hlt _].
  specialize (Hlt ltac:(lia)). discriminate Hlt.
Qed.

Lemma hasMore_compares_effective_pages_witness :
  (pending first_page_requested !! 0%nat = Some first_request /\
   aborted first_page_requested 0 = false /\
   successful (answer [film "a"] 1 3) /\
   successful (answer [film "a"] 3 3)) /\
  hasMore (fetchVideos_resume 0 (Answered (answer [film "a"] 1 3))
             first_page_requested) = true /\
  hasMore (fetchVideos_resume 0 (Answered (answer [film "a"] 3 3))
             first_page_requested) = false.
Proof.
  assert (Hp : pending first_page_requested !! 0%nat = Some first_request)
    by reflexivity.
  assert (Ha : aborted first_page_requested 0 = false) by reflexivity.
  split; [split; [exact Hp|split; [exact Ha|split; reflexivity]]|].
  split.
  - apply (proj2 (hasMore_compares_effective_pages 0 first_request
                    (answer [film "a"] 1 3) first_page_requested
                    Hp Ha eq_refl) 1%Z 3%Z eq_refl ltac:(discriminate) eq_refl).
    lia.
  - apply (proj2 (hasMore_compares_effective_pages 0 first_request
                    (answer [film "a"] 3 3) first_page_requested
                    Hp Ha eq_refl) 3%Z 3%Z eq_refl ltac:(discriminate) eq_refl).
    lia.
Defined.

Lemma openlist_page_configured (n : Z) (data : ListData) :
  data_error data = None ->
  configured openlist_only (openlist_page n) /\ successful data.
Proof.
  intros E. split; [split; [reflexivity|discriminate]|].
  unfold successful. rewrite E. reflexivity.
Defined.

Lemma pages_accumulate_witness :
  (page (openlist_page 1) = 1%Z /\
   Forall (fun p => page p.1 <> 1%Z)
          [(openlist_page 2, answer [film "c"] 2 2)] /\
   Forall (fun p => configured openlist_only p.1 /\ successful p.2)
          two_pages) /\
  videos (fetch_page openlist_only initial
            (openlist_page 1, answer [film "a"; film "b"] 1 2))
    = [film "a"; film "b"] /\
  (forall done next more,
      [(openlist_page 2, answer [film "c"] 2 2)] = done ++ next :: more ->
      videos (fetch_pages openlist_only initial
                ((openlist_page 1, answer [film "a"; film "b"] 1 2)
                   :: done ++ [next])) =
        videos (fetch_pages openlist_only initial
                  ((openlist_page 1, answer [film "a"; film "b"] 1 2)
                     :: done))
          ++ items next.2) /\
  videos (fetch_pages openlist_only initial two_pages)
    = [film "a"; film "b"; film "c"] /\
  length (videos (fetch_pages openlist_only initial two_pages)) = 3%nat.
Proof.
  assert (Hlater : Forall (fun p : Deps * ListData => page p.1 <> 1%Z)
                     [(openlist_page 2, answer [film "c"] 2 2)]).
  { apply Forall_cons_2; [discriminate|apply Forall_nil_2]. }
  assert (Hall : Forall (fun p : Deps * ListData =>
                           configured openlist_only p.1 /\ successful p.2)
                        two_pages).
  { apply Forall_cons_2; [apply openlist_page_configured; reflexivity|].
    apply Forall_cons_2; [apply openlist_page_configured; reflexivity|].
    apply Forall_nil_2. }
  split; [split; [reflexivity|split; assumption]|].
  apply (pages_accumulate openlist_only initial
           (openlist_page 1, answer [film "a"; film "b"] 1 2)
           [(openlist_page 2, answer [film "c"] 2 2)]
           eq_refl Hlater Hall).
Defined.


End LibraryExamples.

(** * Further properties of the danmaku filter route *)

Section RouteFurther.
Import JS Route Policy.
Context {Num : Type} `{NumberOps Num}.

Implicit Types (env : Env) (request : NextRequest Num) (db : Db Num).

Lemma authorize_session env request name :
  authorize env request = Granted name -> session_user request = Some name.
Proof.
  unfold authorize. destruct (session_user request) as [n|]; [|discriminate].
  destruct (getConfig env); [|discriminate].
  destruct (bool_decide _); [congruence|].
  destruct (user_record _ _) as [u|]; [|discriminate].
  destruct (banned u); congruence.
Qed.

Lemma map_throwing_shape (input_rules : list (Value Num))
    (stored : list (DanmakuFilterRule Num)) :
  map_throwing validate_rule input_rules = Normal stored ->
  length stored = length input_rules /\
  Forall (fun r => type r = "normal" \/ type r = "regex") stored.
Proof.
  revert stored. induction input_rules as [|rule rest IH]; intros stored; simpl.
  - intros [= <-]. split; [reflexivity|constructor].
  - destruct (validate_rule rule) as [r|e] eqn:Er; simpl; [|discriminate].
    destruct (map_throwing validate_rule rest) as [rs|e]; simpl; [|discriminate].
    intros [= <-]. destruct (IH rs eq_refl) as [Hlen Hall].
    split; [simpl; congruence|]. constructor; [|exact Hall].
    unfold validate_rule in Er.
    destruct (Get rule "keyword") as [kw|]; simpl in Er; [|discriminate].
    destruct (ToString _) as [text|]; simpl in Er; [|discriminate].
    destruct (Get rule "type") as [t|]; simpl in Er; [|discriminate].
    destruct (Get rule "enabled"); simpl in Er; [|discriminate].
    destruct (Get rule "id"); simpl in Er; [|discriminate].
    injection Er as <-. simpl.
    destruct t as [| | | |t| |]; auto.
    destruct (String.eqb_spec t "regex") as [->|_]; [auto|].
    destruct (String.eqb_spec t "normal") as [->|_]; auto.
Qed.

(** Every way a POST can go: answered 400, 401 or 500 with the store
    untouched; a write the store refused; or a write that went through. *)
Lemma POST_cases env request db :
  (((status (POST env request db).1 = 400%Z \/
     status (POST env request db).1 = 401%Z \/
     status (POST env request db).1 = 500%Z) /\
    (POST env request db).2 = db) \/
   (exists name stored,
      authorize env request = Granted name /\
      available db = false /\
      status (POST env request db).1 = 500%Z /\
      (POST env request db).2 = called (SetCall name {| rules := stored |}) db)) \/
  (exists name props input_rules stored,
      authorize env request = Granted name /\
      json request = Normal (Object props) /\
      own_property props "rules" = Some (Array input_rules) /\
      map_throwing validate_rule input_rules = Normal stored /\
      available db = true /\
      (POST env request db).1 = NextResponse_json (SuccessBody true) None /\
      (POST env request db).2 =
        {| kv := <[name := {| rules := stored |}]> (kv db);
           available := true;
           calls := SetCall name {| rules := stored |} :: calls db |}).
Proof.
  destruct (authorize env request) as [| | | |name] eqn:Eauth.
  1-3: left; left;
    rewrite (POST_denied env request db _
               (eq_trans (f_equal denial Eauth) eq_refl));
    simpl; auto.
  - left. left. unfold POST, POST_try.
    unfold authorize, session_user in Eauth.
    destruct (getAuthInfoFromCookie request) as [authInfo|]; [|discriminate].
    destruct (auth_username authInfo) as [[|a s]|]; try discriminate.
    destruct (getConfig env) as [c|e]; [|simpl; auto].
    destruct (bool_decide _); [discriminate|].
    destruct (user_record c _) as [u|]; [|discriminate].
    destruct (banned u); discriminate.
  - unfold POST. rewrite (POST_try_granted _ _ _ Eauth).
    unfold POST_write, mbind, handler_bind, await.
    destruct (json request) as [config|e] eqn:Ejson; [|left; left; simpl; auto].
    destruct (ToBoolean config) eqn:Etruthy; simpl; [|left; left; auto].
    destruct config as [| |b|n|s|elems|props]; simpl in *;
      try discriminate; try (left; left; auto; fail).
    destruct (own_property props "rules") as [[| | | | |input_rules|]|] eqn:Eprop;
      simpl; try (left; left; auto; fail).
    destruct (map_throwing validate_rule input_rules) as [stored|e] eqn:Emap;
      [|left; left; simpl; auto].
    unfold db_setDanmakuFilterConfig.
    destruct (available db) eqn:Eup; simpl.
    + right. exists name, props, input_rules, stored.
      rewrite Eup. repeat split; auto.
    + left. right. exists name, stored. auto.
Qed.

Lemma map_throwing_nullish (input_rules : list (Value Num)) :
  In Null input_rules \/ In Undefined input_rules ->
  exists e, map_throwing validate_rule input_rules = Throw e.
Proof.
  induction input_rules as [|rule rest IH]; simpl; [intros [[]|[]]|].
  intros Hin.
  destruct (validate_rule rule) as [r|e] eqn:Er; simpl; [|eauto].
  destruct IH as [e He].
  - destruct Hin as [[->|Hin]|[->|Hin]]; auto; discriminate Er.
  - rewrite He. simpl. eauto.
Qed.

(** X1: what an authorized user posts is what the same user then gets:
    after a POST of a well-formed body whose rules all get through, with
    the store up, a GET by that user answers 200 with exactly the
    normalized rules. *)
Theorem post_then_get_round_trip
    env request request' db name props input_rules :
  authorize env request = Granted name ->
  authorize env request' = Granted name ->
  json request = Normal (Object props) ->
  own_property props "rules" = Some (Array input_rules) ->
  available db = true ->
  Forall convertible input_rules ->
  exists stored,
    map_throwing validate_rule input_rules = Normal stored /\
    (GET env request' (POST env request db).2).1 =
      NextResponse_json (ConfigBody {| rules := stored |}) None.
Proof.
  intros Hauth Hauth' Hjson Hrules Hup Hconv.
  destruct (map_throwing_convertible _ Hconv) as (stored & Hmap & _).
  exists stored. split; [exact Hmap|].
  destruct (POST_cases env request db)
    as [[[_ Hdb]|(n & st & _ & Hdown & _)]
       |(n & p & i & st & Ha & Hj & Hp & Hm & _ & _ & Hdb)].
  - pose proof (POST_stores _ _ _ _ _ _ _ Hauth Hjson Hrules Hmap Hup)
      as (_ & _ & Hcalls).
    rewrite Hdb in Hcalls. exfalso.
    apply (f_equal (@length _)) in Hcalls. simpl in Hcalls. lia.
  - congruence.
  - assert (n = name) as -> by congruence.
    assert (p = props) as -> by congruence.
    assert (i = input_rules) as -> by congruence.
    assert (st = stored) as -> by congruence.
    unfold GET. rewrite (GET_try_granted _ _ _ Hauth'), Hdb.
    unfold GET_read, mbind, handler_bind, db_getDanmakuFilterConfig. simpl.
    rewrite lookup_insert_eq. reflexivity.
Qed.

(** X2: a POST that is not answered with 200 has itself stored
    nothing.  Answered 400 or 401, it made no call to the store, which is
    as it was, call log included.  Answered 500, it either made no call,
    or its one call was the write and that write threw: the store is then
    whatever the failed write left, and the handler added nothing to it. *)
Theorem POST_failure_stores_nothing env request db :
  status (POST env request db).1 <> 200%Z ->
  (status (POST env request db).1 = 400%Z \/
   status (POST env request db).1 = 401%Z ->
   (POST env request db).2 = db) /\
  ((POST env request db).2 = db \/
   (status (POST env request db).1 = 500%Z /\
    exists name stored e,
      db_setDanmakuFilterConfig name {| rules := stored |} db
        = (Throw e, (POST env request db).2))).
Proof.
  intros Hstatus.
  destruct (POST_cases env request db)
    as [[[_ Hdb]|(n & st & _ & Hdown & E & Hdb)]
       |(n & p & i & st & _ & _ & _ & _ & _ & Hresp & _)].
  - split; [intros _; exact Hdb|left; exact Hdb].
  - split.
    + rewrite E. intros [?|?]; discriminate.
    + right. split; [exact E|]. exists n, st, HostError.
      rewrite Hdb. unfold db_setDanmakuFilterConfig. rewrite Hdown. reflexivity.
  - rewrite Hresp in Hstatus. contradiction Hstatus. reflexivity.
Qed.

(** X3: a GET never changes what is stored and never calls
    [setDanmakuFilterConfig]: it makes at most one call, a read under the
    session's username; and its status is 200, 401 or 500. *)
Theorem GET_only_reads env request db :
  kv (GET env request db).2 = kv db /\
  available (GET env request db).2 = available db /\
  (calls (GET env request db).2 = calls db \/
   exists name, session_user request = Some name /\
                calls (GET env request db).2 = GetCall name :: calls db) /\
  (status (GET env request db).1 = 200%Z \/
   status (GET env request db).1 = 401%Z \/
   status (GET env request db).1 = 500%Z).
Proof.
  destruct (authorize env request) as [| | | |name] eqn:Eauth.
  1-3: rewrite (GET_denied env request db _
                  (eq_trans (f_equal denial Eauth) eq_refl));
    simpl; repeat split; auto.
  - assert (E : GET env request db =
      (NextResponse_json (ErrorBody "获取弹幕过滤配置失败") (Some 500%Z), db)).
    { unfold GET, GET_try. unfold authorize, session_user in Eauth.
      destruct (getAuthInfoFromCookie request) as [authInfo|]; [|discriminate].
      destruct (auth_username authInfo) as [[|a s]|]; try discriminate.
      destruct (getConfig env) as [c|e]; [|reflexivity].
      destruct (bool_decide _); [discriminate|].
      destruct (user_record c _) as [u|]; [|discriminate].
      destruct (banned u); discriminate. }
    rewrite E. simpl. repeat split; auto.
  - unfold GET. rewrite (GET_try_granted _ _ _ Eauth).
    unfold GET_read, mbind, handler_bind, db_getDanmakuFilterConfig.
    pose proof (authorize_session _ _ _ Eauth) as Hs.
    destruct (available db) eqn:Eup; [destruct (kv db !! name)|]; simpl;
      rewrite ?Eup;
      (split; [reflexivity|split; [reflexivity|split;
         [right; exists name; split; [exact Hs|reflexivity]|auto]]]).
Qed.

(** X4: a POST touches no entry but the caller's: under every other
    username the store holds what it held. *)
Theorem POST_leaves_other_users env request db (other : string) :
  session_user request <> Some other ->
  kv (POST env request db).2 !! other = kv db !! other.
Proof.
  intros Hother.
  destruct (POST_cases env request db)
    as [[[_ ->]|(n & st & _ & _ & _ & ->)]
       |(n & p & i & st & Ha & _ & _ & _ & _ & _ & ->)]; try reflexivity.
  simpl. apply lookup_insert_ne.
  intros ->. apply Hother, authorize_session with env, Ha.
Qed.

(** X5: the last writer wins, with no merge: after two accepted POSTs
    by one user the store holds the normalized rules of the second body
    alone. *)
Theorem POST_replaces_previous
    env request1 request2 db name props1 rules1 props2 rules2 :
  authorize env request1 = Granted name ->
  authorize env request2 = Granted name ->
  json request1 = Normal (Object props1) ->
  own_property props1 "rules" = Some (Array rules1) ->
  json request2 = Normal (Object props2) ->
  own_property props2 "rules" = Some (Array rules2) ->
  available db = true ->
  Forall convertible rules1 ->
  Forall convertible rules2 ->
  exists stored2,
    map_throwing validate_rule rules2 = Normal stored2 /\
    kv (POST env request2 (POST env request1 db).2).2 =
      <[name := {| rules := stored2 |}]> (kv db).
Proof.
  intros Ha1 Ha2 Hj1 Hp1 Hj2 Hp2 Hup Hc1 Hc2.
  destruct (map_throwing_convertible _ Hc1) as (stored1 & Hm1 & _).
  destruct (map_throwing_convertible _ Hc2) as (stored2 & Hm2 & _).
  exists stored2. split; [exact Hm2|].
  destruct (POST_stores _ _ _ _ _ _ _ Ha1 Hj1 Hp1 Hm1 Hup) as (_ & Hkv1 & _).
  assert (Hup1 : available (POST env request1 db).2 = true).
  { destruct (POST_cases env request1 db)
      as [[[_ ->]|(n & st & _ & Hdown & _)]
         |(n & p & i & st & _ & _ & _ & _ & _ & _ & ->)];
      [exact Hup|congruence|reflexivity]. }
  destruct (POST_stores _ _ _ _ _ _ _ Ha2 Hj2 Hp2 Hm2 Hup1) as (_ & -> & _).
  rewrite Hkv1. apply insert_insert_eq.
Qed.

(** X6: one [null] among the rules fails the whole request: the answer
    is the 500 of the [catch], and nothing is stored, not even the rules
    that came before it. *)
Theorem null_rule_fails_request env request db name props input_rules :
  authorize env request = Granted name ->
  json request = Normal (Object props) ->
  own_property props "rules" = Some (Array input_rules) ->
  In Null input_rules ->
  POST env request db =
    (NextResponse_json (ErrorBody "保存弹幕过滤配置失败") (Some 500%Z), db).
Proof.
  intros Hauth Hjson Hrules Hnull.
  destruct (map_throwing_nullish input_rules (or_introl Hnull)) as [e He].
  unfold POST. rewrite (POST_try_granted _ _ _ Hauth).
  unfold POST_write, mbind, handler_bind, await. rewrite Hjson. simpl.
  rewrite Hrules. simpl. rewrite He. reflexivity.
Qed.

(** X7: whenever a POST is answered with 200, the caller has a session,
    the body was an object with an array under [rules], and the store now
    holds, under the caller's name, one rule per input rule, each of type
    [normal] or [regex]; the write was the only call made. *)
Theorem POST_ok_stores_valid_rules env request db :
  status (POST env request db).1 = 200%Z ->
  exists name props input_rules stored,
    session_user request = Some name /\
    json request = Normal (Object props) /\
    own_property props "rules" = Some (Array input_rules) /\
    kv (POST env request db).2 = <[name := {| rules := stored |}]> (kv db) /\
    calls (POST env request db).2 =
      SetCall name {| rules := stored |} :: calls db /\
    length stored = length input_rules /\
    Forall (fun r => type r = "normal" \/ type r = "regex") stored.
Proof.
  intros Hstatus.
  destruct (POST_cases env request db)
    as [[[[E|[E|E]] _]|(n & st & _ & _ & E & _)]
       |(n & p & i & st & Ha & Hj & Hp & Hm & _ & _ & Hdb)];
    try (rewrite E in Hstatus; discriminate).
  exists n, p, i, st. rewrite Hdb. simpl.
  destruct (map_throwing_shape _ _ Hm) as [Hlen Hall].
  repeat split; auto. apply authorize_session with env, Ha.
Qed.

(** X8: the session is checked before the site configuration is
    loaded.  When [getConfig] fails, a request without a session still
    gets its 401 from both handlers, and a request with one gets the 500
    of the handler's [catch]; the store is untouched either way. *)
Theorem session_checked_before_config env request db e :
  getConfig env = Throw e ->
  (session_user request = None ->
   GET env request db =
     (NextResponse_json (ErrorBody "未登录") (Some 401%Z), db) /\
   POST env request db =
     (NextResponse_json (ErrorBody "未登录") (Some 401%Z), db)) /\
  (forall name,
     session_user request = Some name ->
     GET env request db =
       (NextResponse_json (ErrorBody "获取弹幕过滤配置失败") (Some 500%Z), db) /\
     POST env request db =
       (NextResponse_json (ErrorBody "保存弹幕过滤配置失败") (Some 500%Z), db)).
Proof.
  intros Hconfig. split.
  - intros Hs.
    assert (Hden : denial (Num:=Num) (authorize env request) =
              Some (NextResponse_json (ErrorBody "未登录") (Some 401%Z))).
    { unfold authorize. rewrite Hs. reflexivity. }
    split; [apply GET_denied|apply POST_denied]; exact Hden.
  - intros name Hs. unfold GET, POST, GET_try, POST_try.
    unfold session_user in Hs.
    destruct (getAuthInfoFromCookie request) as [authInfo|]; [|discriminate].
    destruct (auth_username authInfo) as [[|a s]|]; try discriminate.
    rewrite Hconfig. split; reflexivity.
Qed.

End RouteFurther.

(** ** The route on more concrete requests *)

Section RouteFurtherExamples.
Import JS Route Policy Samples MoreSamples.

Lemma post_then_get_witness :
  (authorize site (request_of "alice" (Normal loose_body)) = Granted "alice" /\
   authorize site (request_of "alice" (Normal Null)) = Granted "alice" /\
   available empty_db = true /\
   Forall convertible loose_rules) /\
  exists stored,
    map_throwing validate_rule loose_rules = Normal stored /\
    (GET site (request_of "alice" (Normal Null))
       (POST site (request_of "alice" (Normal loose_body)) empty_db).2).1 =
      NextResponse_json (ConfigBody {| rules := stored |}) None.
Proof.
  split; [split; [reflexivity|split; [reflexivity|split;
    [reflexivity|exact loose_rules_convertible]]]|].
  apply (post_then_get_round_trip site
           (request_of "alice" (Normal loose_body))
           (request_of "alice" (Normal Null)) empty_db "alice"
           [("rules", Array loose_rules)] loose_rules
           eq_refl eq_refl eq_refl eq_refl eq_refl loose_rules_convertible).
Defined.

Lemma POST_failure_stores_nothing_witness :
  (status (POST site (request_of "alice" (Normal Null)) empty_db).1 <> 200%Z /\
   status (POST site (request_of "alice" (Normal loose_body)) down_db).1
     <> 200%Z) /\
  (POST site (request_of "alice" (Normal Null)) empty_db).2 = empty_db /\
  ((POST site (request_of "alice" (Normal loose_body)) down_db).2 = down_db \/
   (status (POST site (request_of "alice" (Normal loose_body)) down_db).1
      = 500%Z /\
    exists name stored e,
      db_setDanmakuFilterConfig name {| rules := stored |} down_db
        = (Throw e,
           (POST site (request_of "alice" (Normal loose_body)) down_db).2))).
Proof.
  assert (Hs : status (POST site (request_of "alice" (Normal Null))
                         empty_db).1 <> 200%Z) by discriminate.
  assert (Hd : status (POST site (request_of "alice" (Normal loose_body))
                         down_db).1 <> 200%Z) by discriminate.
  split; [split; assumption|]. split.
  - apply (proj1 (POST_failure_stores_nothing site
                    (request_of "alice" (Normal Null)) empty_db Hs)).
    left. reflexivity.
  - apply (proj2 (POST_failure_stores_nothing site
                    (request_of "alice" (Normal loose_body)) down_db Hd)).
Defined.

Lemma POST_leaves_other_users_witness :
  session_user (request_of "alice" (Normal loose_body)) <> Some "bob" /\
  kv (POST site (request_of "alice" (Normal loose_body)) empty_db).2 !! "bob"
    = kv empty_db !! "bob".
Proof.
  assert (Hs : session_user (request_of "alice" (Normal loose_body))
               <> Some "bob") by discriminate.
  split; [exact Hs|].
  apply (POST_leaves_other_users site
           (request_of "alice" (Normal loose_body)) empty_db "bob" Hs).
Defined.

Lemma tidy_input_convertible : Forall convertible [tidy_input].
Proof.
  apply Forall_cons_2; [|apply Forall_nil_2].
  eexists _, _; split; reflexivity.
Defined.

Lemma POST_replaces_previous_witness :
  (authorize site (request_of "alice" (Normal loose_body)) = Granted "alice" /\
   authorize site (request_of "alice" (Normal tidy_body)) = Granted "alice" /\
   available empty_db = true /\
   Forall convertible loose_rules /\
   Forall convertible [tidy_input]) /\
  exists stored2,
    map_throwing validate_rule [tidy_input] = Normal stored2 /\
    kv (POST site (request_of "alice" (Normal tidy_body))
          (POST site (request_of "alice" (Normal loose_body)) empty_db).2).2 =
      <["alice" := {| rules := stored2 |}]> (kv empty_db).
Proof.
  split; [split; [reflexivity|split; [reflexivity|split; [reflexivity|split;
    [exact loose_rules_convertible|exact tidy_input_convertible]]]]|].
  apply (POST_replaces_previous site
           (request_of "alice" (Normal loose_body))
           (request_of "alice" (Normal tidy_body)) empty_db "alice"
           [("rules", Array loose_rules)] loose_rules
           [("rules", Array [tidy_input])] [tidy_input]
           eq_refl eq_refl eq_refl eq_refl eq_refl eq_refl eq_refl
           loose_rules_convertible tidy_input_convertible).
Defined.

Lemma null_rule_fails_request_witness :
  (authorize site (request_of "alice" (Normal holed_body)) = Granted "alice" /\
   In Null [Object [("keyword", Str "ad")]; (Null : Value Z)]) /\
  POST site (request_of "alice" (Normal holed_body)) empty_db =
    (NextResponse_json (ErrorBody "保存弹幕过滤配置失败") (Some 500%Z), empty_db).
Proof.
  assert (Hin : In Null [Object [("keyword", Str "ad")]; (Null : Value Z)]).
  { right. left. reflexivity. }
  split; [split; [reflexivity|exact Hin]|].
  apply (null_rule_fails_request site
           (request_of "alice" (Normal holed_body)) empty_db "alice"
           [("rules", Array [Object [("keyword", Str "ad")]; Null])]
           [Object [("keyword", Str "ad")]; Null]
           eq_refl eq_refl eq_refl Hin).
Defined.

Lemma POST_ok_stores_valid_rules_witness :
  status (POST site (request_of "alice" (Normal loose_body)) empty_db).1
    = 200%Z /\
  exists name props input_rules stored,
    session_user (request_of "alice" (Normal loose_body)) = Some name /\
    json (request_of "alice" (Normal loose_body)) = Normal (Object props) /\
    own_property props "rules" = Some (Array input_rules) /\
    kv (POST site (request_of "alice" (Normal loose_body)) empty_db).2
      = <[name := {| rules := stored |}]> (kv empty_db) /\
    calls (POST site (request_of "alice" (Normal loose_body)) empty_db).2 =
      SetCall name {| rules := stored |} :: calls empty_db /\
    length stored = length input_rules /\
    Forall (fun r => type r = "normal" \/ type r = "regex") stored.
Proof.
  assert (Hs : status (POST site (request_of "alice" (Normal loose_body))
                         empty_db).1 = 200%Z) by reflexivity.
  split; [exact Hs|].
  apply (POST_ok_stores_valid_rules site
           (request_of "alice" (Normal loose_body)) empty_db Hs).
Defined.

Lemma session_checked_before_config_witness :
  getConfig site_down = Throw HostError /\
  GET site_down anonymous empty_db =
    (NextResponse_json (ErrorBody "未登录") (Some 401%Z), empty_db) /\
  POST site_down (request_of "alice" (Normal loose_body)) empty_db =
    (NextResponse_json (ErrorBody "保存弹幕过滤配置失败") (Some 500%Z), empty_db).
Proof.
  split; [reflexivity|].
  split.
  - apply (proj1 (session_checked_before_config site_down anonymous empty_db
                    HostError eq_refl)). reflexivity.
  - apply (proj2 (session_checked_before_config site_down
                    (request_of "alice" (Normal loose_body)) empty_db
                    HostError eq_refl) "alice"). reflexivity.
Defined.

End RouteFurtherExamples.

(** * Properties of the settings dialog *)

Section SettingsProperties.
Import Settings.
Local Open Scope list_scope.

Implicit Types (st : State) (i : option string) (r : DanmakuFilterRule).

Lemma truthy_Some (s : string) : truthy (Some s) = true <-> s <> "".
Proof. destruct s; simpl; split; congruence. Qed.

Lemma truthy_is_Some i : truthy i = true -> exists s, i = Some s /\ s <> "".
Proof.
  destruct i as [s|]; [|discriminate]. intros Ht. exists s.
  split; [reflexivity|apply truthy_Some, Ht].
Qed.

Lemma pretty_N_go_nonempty (x : N) (s : string) :
  s <> "" -> pretty_N_go x s <> "".
Proof.
  revert s. induction (N.lt_wf_0 x) as [x _ IH]; intros s Hs.
  destruct (decide (x = 0%N)) as [->|Hx].
  - rewrite pretty_N_go_0. exact Hs.
  - rewrite pretty_N_go_step by lia. apply IH; [|discriminate].
    apply N.div_lt; lia.
Qed.

(** [Date.now().toString()] is never the empty string. *)
Lemma pretty_Z_nonempty (z : Z) : pretty z <> "".
Proof.
  assert (Hpos : forall p : positive, pretty p <> "").
  { intros p. unfold pretty, pretty_positive, pretty, pretty_N.
    rewrite decide_False by discriminate.
    rewrite pretty_N_go_step by lia. apply pretty_N_go_nonempty. discriminate. }
  destruct z as [|p|p]; [discriminate|apply Hpos|].
  unfold pretty, pretty_Z. discriminate.
Qed.

Lemma trimStart_spaces (s : string) :
  Forall (fun a => space1 a = true) (list_ascii_of_string s) ->
  trimStart s = "".
Proof.
  induction s as [|a s IH]; simpl; [reflexivity|].
  intros Hall. apply Forall_cons in Hall as [-> Hall]. apply IH, Hall.
Qed.

(** X9: a keyword made of nothing but ASCII blanks (spaces, tabs, line
    breaks) adds no rule: the configuration and the input stay as they
    are, and the user is asked for a keyword. *)
Theorem blank_keyword_adds_nothing (now : Z) st :
  Forall (fun a => space1 a = true) (list_ascii_of_string (newKeyword st)) ->
  config (handleAddRule now st) = config st /\
  newKeyword (handleAddRule now st) = newKeyword st /\
  alerts (handleAddRule now st) = "请输入关键字" :: alerts st.
Proof.
  intros Hblank. unfold handleAddRule, trim.
  rewrite (trimStart_spaces _ Hblank). simpl. auto.
Qed.

(** A rule [handleAddRule] makes is well shaped. *)
Lemma handleAddRule_well_shaped (now : Z) st :
  Forall well_shaped (rules (config st)) ->
  Forall well_shaped (rules (config (handleAddRule now st))).
Proof.
  intros Hall. unfold handleAddRule.
  destruct (String.eqb_spec (trim (newKeyword st)) "") as [_|Hne];
    [exact Hall|].
  simpl. apply Forall_app. split; [exact Hall|].
  apply Forall_cons_2; [|apply Forall_nil_2].
  split; simpl; [exact Hne|]. apply truthy_Some, pretty_Z_nonempty.
Qed.

(** X10: as long as what is loaded from the server is well shaped, every
    rule in the dialog has a keyword that is not empty and an id, whatever
    the user types, adds, deletes, toggles or saves. *)
Theorem dialog_rules_stay_well_shaped st (l : list Action) :
  Forall well_shaped (rules (config st)) ->
  Forall (fun a => match a with
                   | LoadSettled (JS.Normal (Some loaded)) =>
                       Forall well_shaped (rules loaded)
                   | _ => True
                   end) l ->
  Forall well_shaped (rules (config (acts st l))).
Proof.
  revert st. induction l as [|a l IH]; intros st Hst Hl; [exact Hst|].
  apply Forall_cons in Hl as [Ha Hl]. apply IH; [|exact Hl].
  destruct a as [text|t|now|i|i| |loaded| |listening saved]; simpl;
    try exact Hst.
  - apply handleAddRule_well_shaped, Hst.
  - unfold handleDeleteRule. destruct (truthy i); simpl; [|exact Hst].
    apply Forall_forall. intros r Hr. apply list_elem_of_filter in Hr as [_ Hr].
    revert r Hr. apply Forall_forall, Hst.
  - unfold handleToggleRule. destruct (truthy i); simpl; [|exact Hst].
    apply Forall_fmap. eapply Forall_impl; [exact Hst|].
    intros r Hr. simpl. case_bool_decide; [|exact Hr].
    destruct Hr as [Hk Hi]. split; assumption.
  - unfold loadConfig_settled.
    destruct loaded as [[loaded|]|e]; simpl; [exact Ha|constructor|exact Hst].
  - unfold handleSave_settled.
    destruct saved; [destruct listening|]; exact Hst.
Qed.

(** X11: toggling the same rule twice leaves the dialog exactly as it
    was. *)
Theorem toggle_twice_is_identity i st :
  handleToggleRule i (handleToggleRule i st) = st.
Proof.
  unfold handleToggleRule. destruct (truthy i) eqn:Ht; simpl; [|reflexivity].
  destruct st as [[rs] kw ty ld sv al up]. unfold setConfig.
  simpl. do 2 f_equal. rewrite <- list_fmap_compose.
  rewrite <- (list_fmap_id rs) at 2. apply list_fmap_ext.
  intros _ r _. simpl. destruct (decide (id r = i)) as [Hi|Hi].
  - rewrite (bool_decide_eq_true_2 _ Hi). simpl.
    rewrite (bool_decide_eq_true_2 _ Hi).
    destruct r as [k t e ri]. simpl. rewrite negb_involutive. reflexivity.
  - rewrite (bool_decide_eq_false_2 _ Hi). rewrite (bool_decide_eq_false_2 _ Hi).
    reflexivity.
Qed.

Lemma sublist_filter_greatest {A : Type} (P : A -> Prop)
    `{!forall x, Decision (P x)} (l rs : list A) :
  l `sublist_of` rs -> Forall P l -> l `sublist_of` filter P rs.
Proof.
  induction 1 as [|x l1 l2 _ IH|x l1 l2 _ IH]; intros Hall.
  - apply sublist_nil_l.
  - apply Forall_cons in Hall as [Hx Hall].
    rewrite filter_cons_True by exact Hx. apply sublist_skip, IH, Hall.
  - rewrite filter_cons. destruct (decide (P x));
      [apply sublist_cons|]; apply IH, Hall.
Qed.

(** X12: deleting by a (non-empty) id removes every rule with that id
    and nothing else: what is left is a sublist of the rules, holds no
    rule with that id, and is the greatest such sublist, so every rule
    with another id stays, with all its copies and in its order; and
    deleting again changes nothing. *)
Theorem delete_removes_exactly i st :
  truthy i = true ->
  (forall r, r ∈ rules (config (handleDeleteRule i st)) <->
             r ∈ rules (config st) /\ id r <> i) /\
  rules (config (handleDeleteRule i st)) `sublist_of` rules (config st) /\
  (forall kept,
      kept `sublist_of` rules (config st) ->
      Forall (fun r => id r <> i) kept ->
      kept `sublist_of` rules (config (handleDeleteRule i st))) /\
  handleDeleteRule i (handleDeleteRule i st) = handleDeleteRule i st.
Proof.
  intros Ht. unfold handleDeleteRule. rewrite Ht. simpl.
  split; [|split; [|split]].
  - intros r. rewrite list_elem_of_filter. tauto.
  - apply sublist_filter.
  - intros kept Hsub Hall. apply sublist_filter_greatest; assumption.
  - unfold setConfig. simpl. do 2 f_equal.
    apply list_filter_filter_l. auto.
Qed.

Lemma filter_idless_fmap (f : DanmakuFilterRule -> DanmakuFilterRule)
    (rs : list DanmakuFilterRule) :
  (forall r, id r = None -> f r = r) ->
  (forall r, id (f r) = id r) ->
  filter (fun r => id r = None) (f <$> rs) = filter (fun r => id r = None) rs.
Proof.
  intros Hfix Hid. induction rs as [|r rs IH]; [reflexivity|].
  rewrite fmap_cons, !filter_cons, IH, Hid.
  destruct (decide (id r = None)) as [Hn|_]; [|reflexivity].
  rewrite (Hfix r Hn). reflexivity.
Qed.

(** X13: a rule that has no id cannot be deleted or toggled: the rules
    without id are the same, in the same order and state, after any
    actions of the user, as long as no configuration is loaded over them. *)
Theorem rules_without_id_are_stuck st (l : list Action) :
  Forall (fun a => match a with
                   | LoadSettled (JS.Normal _) => False
                   | _ => True
                   end) l ->
  filter (fun r => id r = None) (rules (config (acts st l))) =
  filter (fun r => id r = None) (rules (config st)).
Proof.
  revert st. induction l as [|a l IH]; intros st Hl; [reflexivity|].
  apply Forall_cons in Hl as [Ha Hl]. simpl. rewrite (IH _ Hl). clear IH Hl.
  destruct a as [text|t|now|i|i| |loaded| |listening saved]; simpl;
    try reflexivity.
  - unfold handleAddRule. destruct (String.eqb _ _); [reflexivity|].
    simpl. rewrite filter_app, filter_cons_False by discriminate.
    rewrite filter_nil, app_nil_r. reflexivity.
  - unfold handleDeleteRule. destruct (truthy i) eqn:Ht; [|reflexivity].
    simpl. apply list_filter_filter_l. intros r Hr.
    destruct (truthy_is_Some _ Ht) as (s & -> & _). congruence.
  - unfold handleToggleRule. destruct (truthy i) eqn:Ht; [|reflexivity].
    simpl. destruct (truthy_is_Some _ Ht) as (s & -> & _).
    apply filter_idless_fmap; intros r.
    + intros Hn. rewrite bool_decide_eq_false_2 by congruence. reflexivity.
    + case_bool_decide; reflexivity.
  - unfold loadConfig_settled. destruct loaded as [?|e]; [contradiction|].
    reflexivity.
  - unfold handleSave_settled.
    destruct saved; [destruct listening|]; reflexivity.
Qed.

Lemma filter_keeps_fresh (s : string) (rs : list DanmakuFilterRule) :
  Forall (fun r => id r <> Some s) rs ->
  filter (fun r => id r <> Some s) rs = rs.
Proof.
  induction 1 as [|r rs Hr _ IH]; [reflexivity|].
  rewrite filter_cons_True by exact Hr. rewrite IH. reflexivity.
Qed.

(** X14: adding a rule and then deleting it by its new id gives back the
    configuration there was, provided no rule already carried that id. *)
Theorem add_then_delete_restores (now : Z) st :
  trim (newKeyword st) <> "" ->
  Forall (fun r => id r <> Some (pretty now)) (rules (config st)) ->
  rules (config (handleAddRule now st)) =
    rules (config st) ++
      [{| keyword := trim (newKeyword st); type := newType st;
          enabled := true; id := Some (pretty now) |}] /\
  config (handleDeleteRule (Some (pretty now)) (handleAddRule now st))
    = config st.
Proof.
  intros Hkw Hfresh. unfold handleAddRule.
  rewrite (proj2 (String.eqb_neq _ _) Hkw). split; [reflexivity|].
  unfold handleDeleteRule.
  rewrite (proj2 (truthy_Some _) (pretty_Z_nonempty now)). simpl.
  rewrite filter_app, (filter_keeps_fresh _ _ Hfresh).
  rewrite filter_cons_False by (simpl; intros Hne; apply Hne; reflexivity).
  rewrite filter_nil, app_nil_r. destruct (config st). reflexivity.
Qed.

(** X15: ids are timestamps, so two rules added within one millisecond
    share their id, and deleting either one deletes both. *)
Theorem same_millisecond_rules_share_fate (now : Z) (text : string) st :
  trim (newKeyword st) <> "" ->
  trim text <> "" ->
  Forall (fun r => id r <> Some (pretty now)) (rules (config st)) ->
  length (rules (config
            (handleAddRule now (setNewKeyword text (handleAddRule now st)))))
    = S (S (length (rules (config st)))) /\
  config (handleDeleteRule (Some (pretty now))
            (handleAddRule now (setNewKeyword text (handleAddRule now st))))
    = config st.
Proof.
  intros Hkw Htext Hfresh.
  assert (Hadd : handleAddRule now st =
    setNewKeyword ""
      (setConfig {| rules := rules (config st) ++
                      [{| keyword := trim (newKeyword st); type := newType st;
                          enabled := true; id := Some (pretty now) |}] |} st)).
  { unfold handleAddRule. rewrite (proj2 (String.eqb_neq _ _) Hkw). reflexivity. }
  rewrite Hadd. unfold handleAddRule. simpl.
  rewrite (proj2 (String.eqb_neq _ _) Htext). simpl. split.
  - rewrite !length_app. simpl. lia.
  - unfold handleDeleteRule.
    rewrite (proj2 (truthy_Some _) (pretty_Z_nonempty now)). simpl.
    rewrite !filter_app, (filter_keeps_fresh _ _ Hfresh).
    rewrite !filter_cons_False by (simpl; intros Hne; apply Hne; reflexivity).
    rewrite filter_nil, !app_nil_r. destruct (config st). reflexivity.
Qed.

End SettingsProperties.

(** * Further properties of the list fetch *)

Section FetchFurther.
Import PrivateLibrary Traces.
Local Open Scope list_scope.

Implicit Types (st : State) (d : Deps) (c : nat) (o : Outcome).

(** X16: for a source that lacks its configuration the fetch effect
    issues no request and creates no controller; it lowers [loading] and
    leaves everything else it could commit (items, error, [hasMore],
    [loadingMore], the fetching ref) as it was. *)
Theorem unconfigured_source_issues_no_request runtimeConfig d st :
  (sourceType d = "openlist" /\ OPENLIST_ENABLED runtimeConfig = false) \/
  (sourceType d = "emby" /\
   (EMBY_ENABLED runtimeConfig = false \/ truthy (embyKey d) = false)) ->
  pending (fetchVideos runtimeConfig d st) = pending st /\
  length (signals (fetchVideos runtimeConfig d st)) = length (signals st) /\
  abortControllerRef (fetchVideos runtimeConfig d st) = abortControllerRef st /\
  loading (fetchVideos runtimeConfig d st) = false /\
  videos (fetchVideos runtimeConfig d st) = videos st /\
  error (fetchVideos runtimeConfig d st) = error st /\
  hasMore (fetchVideos runtimeConfig d st) = hasMore st /\
  loadingMore (fetchVideos runtimeConfig d st) = loadingMore st /\
  isFetchingRef (fetchVideos runtimeConfig d st) = isFetchingRef st.
Proof.
  intros Hoff.
  assert (E : fetchVideos runtimeConfig d st = setLoading false (abort_current st)).
  { unfold fetchVideos.
    destruct Hoff as [[-> ->]|[-> Hemby]]; [reflexivity|].
    simpl. destruct Hemby as [-> | ->]; [reflexivity|].
    destruct (EMBY_ENABLED runtimeConfig); reflexivity. }
  rewrite E. simpl.
  pose proof (abort_current_committed st) as Hc.
  rewrite abort_current_pending, abort_current_length, abort_current_ref.
  repeat split;
    [apply (f_equal c_videos) in Hc|apply (f_equal c_error) in Hc
    |apply (f_equal c_hasMore) in Hc|apply (f_equal c_loadingMore) in Hc
    |apply (f_equal c_isFetching) in Hc]; exact Hc.
Qed.

(** X17: however the page got where it is, at most one suspended
    request has a signal that is not aborted. *)
Theorem at_most_one_live_request runtimeConfig (events : list Event) c1 c2 :
  is_Some (pending (run runtimeConfig initial events) !! c1) ->
  aborted (run runtimeConfig initial events) c1 = false ->
  is_Some (pending (run runtimeConfig initial events) !! c2) ->
  aborted (run runtimeConfig initial events) c2 = false ->
  c1 = c2.
Proof.
  intros Hp1 Ha1 Hp2 Ha2.
  destruct (run_well_formed runtimeConfig events _ well_formed_initial)
    as (_ & Hlive & _).
  pose proof (Hlive _ Hp1 Ha1). pose proof (Hlive _ Hp2 Ha2). congruence.
Qed.

(** X18: a request that fails in transport (rejected, a status that is
    not ok, a body that does not parse), its signal not aborted, sets the
    generic error; it empties the list if it was for page 1 and leaves
    the list alone otherwise; [hasMore] is not touched; the loading flag of
    its kind and the fetching ref are lowered. *)
Theorem failed_fetch_sets_error c request o st :
  pending st !! c = Some request ->
  aborted st c = false ->
  o = FetchRejected \/ o = NotOk \/ o = JsonRejected ->
  error (fetchVideos_resume c o st) = "获取视频列表失败" /\
  videos (fetchVideos_resume c o st) =
    (if isInitial request then [] else videos st) /\
  hasMore (fetchVideos_resume c o st) = hasMore st /\
  loading (fetchVideos_resume c o st) =
    (if isInitial request then false else loading st) /\
  loadingMore (fetchVideos_resume c o st) =
    (if isInitial request then loadingMore st else false) /\
  isFetchingRef (fetchVideos_resume c o st) = false /\
  pending (fetchVideos_resume c o st) !! c = None.
Proof.
  intros Hp Ha Ho. unfold fetchVideos_resume. rewrite Hp.
  unfold aborted in *. simpl. rewrite Ha.
  destruct Ho as [->|[->| ->]]; destruct (isInitial request); simpl;
    rewrite lookup_delete_eq; auto 10.
Qed.

(** X19: a response whose body carries an error message shows that
    message and populates nothing: the list is emptied on page 1 and kept
    on later pages, and [hasMore] stays as it was whatever pages the body
    reports. *)
Theorem error_response_populates_nothing c request data st (message : string) :
  pending st !! c = Some request ->
  aborted st c = false ->
  data_error data = Some message ->
  message <> "" ->
  error (fetchVideos_resume c (Answered data) st) = message /\
  videos (fetchVideos_resume c (Answered data) st) =
    (if isInitial request then [] else videos st) /\
  hasMore (fetchVideos_resume c (Answered data) st) = hasMore st /\
  isFetchingRef (fetchVideos_resume c (Answered data) st) = false.
Proof.
  intros Hp Ha He Hm. unfold fetchVideos_resume. rewrite Hp.
  unfold aborted in *. simpl. rewrite Ha, He.
  assert (Ht : truthy (Some message) = true)
    by (destruct message; [contradiction|reflexivity]).
  rewrite Ht. destruct (isInitial request); simpl; auto.
Qed.

Lemma abort_current_page st : st_page (abort_current st) = st_page st.
Proof. unfold abort_current. destruct (abortControllerRef st); reflexivity. Qed.

Lemma fetchVideos_page runtimeConfig d st :
  st_page (fetchVideos runtimeConfig d st) = st_page st.
Proof.
  unfold fetchVideos. destruct (_ && _); [apply abort_current_page|].
  destruct (_ && _); [apply abort_current_page|].
  destruct (page d =? 1)%Z; apply abort_current_page.
Qed.

Lemma fetchVideos_keeps_fetching runtimeConfig d st :
  isFetchingRef st = true ->
  isFetchingRef (fetchVideos runtimeConfig d st) = true.
Proof.
  intros Hf. pose proof (abort_current_committed st) as Hc.
  apply (f_equal c_isFetching) in Hc. simpl in Hc.
  unfold fetchVideos. destruct (_ && _); [simpl; congruence|].
  destruct (_ && _); [simpl; congruence|].
  destruct (page d =? 1)%Z; reflexivity.
Qed.

(** With the fetching ref up, an event that is neither a reset effect
    nor a settlement keeps it up and leaves the page number alone. *)
Lemma step_while_fetching runtimeConfig st e :
  isFetchingRef st = true ->
  match e with
  | ResetOnSource | ResetOnView | Settled _ _ => False
  | _ => True
  end ->
  isFetchingRef (step runtimeConfig st e) = true /\
  st_page (step runtimeConfig st e) = st_page st.
Proof.
  intros Hf He.
  destruct e as [u|v|v|v| | | |d'| |c' o']; try contradiction; simpl.
  - unfold initFromUrl.
    repeat match goal with |- context [if ?b then _ else _] => destruct b end;
      simpl; auto.
  - auto.
  - auto.
  - auto.
  - unfold intersecting. rewrite Hf, andb_false_r. auto.
  - split; [apply fetchVideos_keeps_fetching, Hf|apply fetchVideos_page].
  - pose proof (abort_current_committed st) as Hc.
    apply (f_equal c_isFetching) in Hc. simpl in Hc.
    split; [congruence|apply abort_current_page].
Qed.

(** X20: from the moment the fetch effect has issued the request of a
    configured source, and for as long as no request settles and no reset
    effect runs, the observer cannot advance the page: whatever else
    happens and however often the observer fires, the fetching ref stays
    up, the page number stays where it was, and one more intersection
    changes nothing.  (A reset effect lowers the flags while the request
    is still suspended; what the observer does after it is not covered.) *)
Theorem observer_waits runtimeConfig d st (events : list Event) :
  configured runtimeConfig d ->
  Forall (fun e => match e with
                   | ResetOnSource | ResetOnView | Settled _ _ => False
                   | _ => True
                   end) events ->
  isFetchingRef (run runtimeConfig (fetchVideos runtimeConfig d st) events)
    = true /\
  st_page (run runtimeConfig (fetchVideos runtimeConfig d st) events)
    = st_page st /\
  intersecting (run runtimeConfig (fetchVideos runtimeConfig d st) events)
    = run runtimeConfig (fetchVideos runtimeConfig d st) events.
Proof.
  intros Hconf Hquiet.
  assert (Hstart : isFetchingRef (fetchVideos runtimeConfig d st) = true).
  { destruct (configured_guards _ _ Hconf) as [G1 G2].
    unfold fetchVideos. rewrite G1, G2.
    destruct (page d =? 1)%Z; reflexivity. }
  assert (Hrun : forall events s,
    Forall (fun e => match e with
                     | ResetOnSource | ResetOnView | Settled _ _ => False
                     | _ => True
                     end) events ->
    isFetchingRef s = true ->
    isFetchingRef (run runtimeConfig s events) = true /\
    st_page (run runtimeConfig s events) = st_page s).
  { clear. intros events. induction events as [|e events IH]; intros s Hq Hf;
      [auto|].
    apply Forall_cons in Hq as [He Hq].
    destruct (step_while_fetching runtimeConfig s e Hf He) as [Hf' Hp'].
    destruct (IH _ Hq Hf') as [Hf'' Hp'']. simpl.
    split; [exact Hf''|congruence]. }
  destruct (Hrun events _ Hquiet Hstart) as [Hf Hp].
  split; [exact Hf|]. split; [rewrite Hp; apply fetchVideos_page|].
  unfold intersecting. rewrite Hf, andb_false_r. reflexivity.
Qed.

(** X21: after the last page the observer asks for no other: once a
    page from a configured source is answered without error and reports a
    page [p] (not 0) that is not below the total [t], an intersection
    leaves the page number where it is. *)
Theorem no_page_past_the_last runtimeConfig d data st (p t : Z) :
  configured runtimeConfig d ->
  successful data ->
  data_page data = Some p ->
  p <> 0%Z ->
  data_totalPages data = Some t ->
  (t <= p)%Z ->
  hasMore (fetch_page runtimeConfig st (d, data)) = false /\
  intersecting (fetch_page runtimeConfig st (d, data)) =
    fetch_page runtimeConfig st (d, data).
Proof.
  intros Hconf Hok Hp Hp0 Ht Hlast.
  destruct (fetch_page_commits runtimeConfig st d data Hconf Hok) as [_ Hmore].
  assert (Hfalse : hasMore (fetch_page runtimeConfig st (d, data)) = false).
  { rewrite Hmore, Hp, Ht. unfold number_or.
    rewrite (proj2 (Z.eqb_neq p 0) Hp0).
    destruct (Z.eqb_spec t 0); apply Z.ltb_ge; lia. }
  split; [exact Hfalse|]. unfold intersecting. rewrite Hfalse. reflexivity.
Qed.

(** With OpenList off and Emby on, initialisation selects Emby whatever
    the URL says, takes no key from the URL, and marks the page
    initialised. *)
Lemma emby_forced_when_openlist_off runtimeConfig
    (urlSourceParam : option string) st :
  OPENLIST_ENABLED runtimeConfig = false ->
  EMBY_ENABLED runtimeConfig = true ->
  st_sourceType (initFromUrl runtimeConfig urlSourceParam st) = "emby" /\
  st_embyKey (initFromUrl runtimeConfig urlSourceParam st) = st_embyKey st /\
  isInitializedRef (initFromUrl runtimeConfig urlSourceParam st) = true.
Proof.
  intros Hopen Hemby. unfold initFromUrl. rewrite Hopen, Hemby. simpl. auto.
Qed.

End FetchFurther.

(** * Properties of the URL, the cards and the Emby lists *)

Section ChromeProperties.
Import PrivateLibrary LibraryChrome.
Local Open Scope list_scope.

Lemma includes_app_separator (t rest : string) (sep : ascii) :
  includes (t ++ String sep rest)%string sep = true.
Proof.
  induction t as [|a t IH]; simpl.
  - rewrite Ascii.eqb_refl. reflexivity.
  - rewrite IH. apply orb_true_r.
Qed.

Lemma split_at_separator (t rest : string) (sep : ascii) :
  includes t sep = false ->
  split (t ++ String sep rest)%string sep = t :: split rest sep.
Proof.
  induction t as [|a t IH]; simpl.
  - intros _. rewrite Ascii.eqb_refl. reflexivity.
  - destruct (Ascii.eqb a sep); simpl; [discriminate|].
    intros Ht. rewrite (IH Ht). reflexivity.
Qed.

Lemma split_first_piece (s : string) (sep : ascii) :
  exists piece pieces,
    split s sep = piece :: pieces /\ includes piece sep = false.
Proof.
  induction s as [|a s (piece & pieces & E & Hp)]; simpl.
  - exists "", []. split; reflexivity.
  - destruct (Ascii.eqb a sep) eqn:Ea.
    + exists "", (split s sep). split; reflexivity.
    + rewrite E. exists (String a piece), pieces.
      split; [reflexivity|]. simpl. rewrite Ea, Hp. reflexivity.
Qed.

Lemma parse_with_separator (t rest : string) :
  includes t ":" = false ->
  parseSourceParam (Some (t ++ String ":" rest)%string) =
    {| parsed_sourceType := t;
       parsed_embyKey := split rest ":" !! 0%nat |}.
Proof.
  intros Ht.
  assert (E : parseSourceParam (Some (t ++ String ":" rest)%string) =
    if includes (t ++ String ":" rest)%string ":"
    then {| parsed_sourceType :=
              default "" (split (t ++ String ":" rest)%string ":" !! 0%nat);
            parsed_embyKey := split (t ++ String ":" rest)%string ":" !! 1%nat |}
    else {| parsed_sourceType := (t ++ String ":" rest)%string;
            parsed_embyKey := None |}).
  { destruct t; reflexivity. }
  rewrite E, includes_app_separator, (split_at_separator _ _ _ Ht).
  reflexivity.
Qed.

Lemma parse_without_separator (s : string) :
  s <> "" ->
  includes s ":" = false ->
  parseSourceParam (Some s) =
    {| parsed_sourceType := s; parsed_embyKey := None |}.
Proof.
  intros Hs Hcolon. destruct s as [|a s]; [contradiction|].
  unfold parseSourceParam. rewrite Hcolon. reflexivity.
Qed.

(** X23: the parser reads the type up to the first colon and the key up
    to the second: whatever follows a second colon is dropped. *)
Theorem parse_stops_at_second_colon (t k tail : string) :
  includes t ":" = false ->
  includes k ":" = false ->
  parseSourceParam (Some (t ++ ":" ++ k)%string) =
    {| parsed_sourceType := t; parsed_embyKey := Some k |} /\
  parseSourceParam (Some (t ++ ":" ++ k ++ ":" ++ tail)%string) =
    {| parsed_sourceType := t; parsed_embyKey := Some k |}.
Proof.
  intros Ht Hk. split.
  - change (t ++ ":" ++ k)%string with (t ++ String ":" k)%string.
    rewrite (parse_with_separator _ _ Ht), (split_without_separator _ _ Hk).
    reflexivity.
  - change (t ++ ":" ++ k ++ ":" ++ tail)%string
      with (t ++ String ":" (k ++ String ":" tail))%string.
    rewrite (parse_with_separator _ _ Ht), (split_at_separator _ _ _ Hk).
    reflexivity.
Qed.

(** X24: the underscore form the cards get is not taken apart by the
    parser: for a key without colon it comes back whole as the source
    type, which is then not [emby], and with no key. *)
Theorem card_form_is_not_parsed (k : string) :
  k <> "" ->
  includes k ":" = false ->
  cardSourceParam "emby" (Some k) = ("emby_" ++ k)%string /\
  parseSourceParam (Some (cardSourceParam "emby" (Some k))) =
    {| parsed_sourceType := ("emby_" ++ k)%string; parsed_embyKey := None |} /\
  parsed_sourceType (parseSourceParam (Some (cardSourceParam "emby" (Some k))))
    <> "emby".
Proof.
  intros Hk Hcolon.
  assert (E : cardSourceParam "emby" (Some k) = ("emby_" ++ k)%string).
  { unfold cardSourceParam. destruct k; [contradiction|reflexivity]. }
  rewrite E. split; [reflexivity|].
  rewrite parse_without_separator; [|discriminate|exact Hcolon].
  split; [reflexivity|]. simpl. discriminate.
Qed.

(** X25: the source type the switch offers survives the URL: whatever
    the key and the listed sources, what the page writes under [source]
    parses back to the same type. *)
Theorem source_type_survives_url (sourceType : string)
    (embyKey : option string) (embySourceOptions : list EmbySourceOption) :
  sourceType = "openlist" \/ sourceType = "emby" ->
  parsed_sourceType
    (parseSourceParam (Some (sourceParam sourceType embyKey embySourceOptions)))
    = sourceType.
Proof.
  intros [-> | ->]; [reflexivity|].
  unfold sourceParam.
  destruct (String.eqb "emby" "emby" && truthy embyKey
            && (1 <? length embySourceOptions)%nat); [|reflexivity].
  change (parsed_sourceType
            (parseSourceParam
               (Some ("emby" ++ String ":" (default "undefined" embyKey))%string))
          = "emby").
  rewrite (parse_with_separator "emby" (default "undefined" embyKey) eq_refl).
  reflexivity.
Qed.

(** X26: a reload finds the selection again: when Emby is not forced,
    initialising from the URL the page wrote for Emby, a key without colon
    and more than one listed source sets the source type to [emby] and the
    key to that key. *)
Theorem init_restores_written_selection runtimeConfig (k : string)
    (embySourceOptions : list EmbySourceOption) (st : State) :
  OPENLIST_ENABLED runtimeConfig = true \/ EMBY_ENABLED runtimeConfig = false ->
  k <> "" ->
  includes k ":" = false ->
  (1 < length embySourceOptions)%nat ->
  st_sourceType
    (initFromUrl runtimeConfig
       (Some (sourceParam "emby" (Some k) embySourceOptions)) st) = "emby" /\
  st_embyKey
    (initFromUrl runtimeConfig
       (Some (sourceParam "emby" (Some k) embySourceOptions)) st) = Some k /\
  isInitializedRef
    (initFromUrl runtimeConfig
       (Some (sourceParam "emby" (Some k) embySourceOptions)) st) = true.
Proof.
  intros Hfree Hk Hcolon Hmany.
  assert (E : sourceParam "emby" (Some k) embySourceOptions
              = ("emby" ++ String ":" k)%string).
  { unfold sourceParam. simpl. destruct k; [contradiction|]. simpl.
    apply Nat.ltb_lt in Hmany. rewrite Hmany. reflexivity. }
  unfold initFromUrl. rewrite E, parse_with_separator by reflexivity.
  rewrite (split_without_separator _ _ Hcolon). simpl.
  assert (G : negb (OPENLIST_ENABLED runtimeConfig)
              && EMBY_ENABLED runtimeConfig = false).
  { destruct Hfree as [-> | ->]; [reflexivity|apply andb_false_r]. }
  rewrite G. destruct k; [contradiction|]. simpl. auto.
Qed.

(** X27: with a single Emby source the URL carries no key, and the key
    comes back from the list of sources instead: parsing what the page
    wrote gives no key, and the load of the sources, run for a render
    without key, selects the key of the one source listed. *)
Theorem single_source_key_comes_from_list (k : string)
    (only : EmbySourceOption) (st : SourceChoice) :
  parsed_embyKey
    (parseSourceParam (Some (sourceParam "emby" (Some k) [only]))) = None /\
  chosen_embyKey
    (fetchEmbySources_settled
       (parsed_embyKey
          (parseSourceParam (Some (sourceParam "emby" (Some k) [only]))))
       (SourcesAnswered (Some [only])) st) = Some (key only) /\
  embySourceOptions
    (fetchEmbySources_settled
       (parsed_embyKey
          (parseSourceParam (Some (sourceParam "emby" (Some k) [only]))))
       (SourcesAnswered (Some [only])) st) = [only].
Proof.
  assert (E : sourceParam "emby" (Some k) [only] = "emby").
  { unfold sourceParam. simpl. rewrite andb_false_r. reflexivity. }
  rewrite E. simpl. auto.
Qed.

(** X28: the view the page restores is always one the server listed:
    after a load of the categories the selected view is the one before,
    or else it is the view named in the URL, it is among the views just
    received, and no restore had happened yet. *)
Theorem restored_view_is_listed (urlView : option string) (o : ViewsOutcome)
    (st : ViewsState) :
  selectedView (fetchEmbyViews_settled urlView o st) = selectedView st \/
  (hasRestoredViewRef st = false /\
   urlView = Some (selectedView (fetchEmbyViews_settled urlView o st)) /\
   exists v, v ∈ embyViews (fetchEmbyViews_settled urlView o st) /\
             view_id v = selectedView (fetchEmbyViews_settled urlView o st)).
Proof.
  unfold fetchEmbyViews_settled.
  destruct o as [|error views]; [left; reflexivity|].
  destruct (truthy error); [left; reflexivity|]. simpl.
  destruct (hasRestoredViewRef st); [left; reflexivity|]. simpl.
  destruct urlView as [u|]; [|left; reflexivity].
  destruct (truthy (Some u)); [|left; reflexivity]. simpl.
  destruct (existsb _ _) eqn:Ex; [|left; reflexivity].
  right. split; [reflexivity|]. split; [reflexivity|].
  apply existsb_exists in Ex as (v & Hin & Hv).
  exists v. split; [apply list_elem_of_In, Hin|].
  apply String.eqb_eq, Hv.
Qed.

Lemma settled_after_restore (urlView : option string) (o : ViewsOutcome)
    (st : ViewsState) :
  hasRestoredViewRef st = true ->
  selectedView (fetchEmbyViews_settled urlView o st) = selectedView st /\
  hasRestoredViewRef (fetchEmbyViews_settled urlView o st) = true.
Proof.
  intros Hr. unfold fetchEmbyViews_settled.
  destruct o as [|error views]; [auto|].
  destruct (truthy error); [auto|]. simpl. rewrite Hr. auto.
Qed.

(** X29: the restore is one-shot: once it has happened, no load of the
    categories, however many follow and whatever the URL says by then,
    changes the selected view. *)
Theorem view_restored_at_most_once (st : ViewsState)
    (loads : list (option string * ViewsOutcome)) :
  hasRestoredViewRef st = true ->
  selectedView
    (fold_left (fun s p => fetchEmbyViews_settled p.1 p.2 s) loads st)
    = selectedView st /\
  hasRestoredViewRef
    (fold_left (fun s p => fetchEmbyViews_settled p.1 p.2 s) loads st) = true.
Proof.
  revert st. induction loads as [|[u o] loads IH]; intros st Hr; [auto|].
  simpl. destruct (settled_after_restore u o st Hr) as [Hs Hr'].
  destruct (IH _ Hr') as [-> ->]. auto.
Qed.

(** X30: a load of the categories that fails, by rejection or by an
    error in the body, empties the list of views but does not use up the
    restore: a later load that lists the view named in the URL still
    selects it. *)
Theorem failed_views_load_keeps_restore (urlView : option string)
    (o : ViewsOutcome) (st : ViewsState) :
  hasRestoredViewRef st = false ->
  (o = ViewsRejected \/
   exists message views, o = ViewsAnswered (Some message) views /\ message <> "") ->
  embyViews (fetchEmbyViews_settled urlView o st) = [] /\
  selectedView (fetchEmbyViews_settled urlView o st) = selectedView st /\
  hasRestoredViewRef (fetchEmbyViews_settled urlView o st) = false /\
  (forall v views,
      v ∈ views ->
      view_id v <> "" ->
      selectedView
        (fetchEmbyViews_settled (Some (view_id v)) (ViewsAnswered None (Some views))
           (fetchEmbyViews_settled urlView o st)) = view_id v).
Proof.
  intros Hr Ho.
  assert (E : fetchEmbyViews_settled urlView o st =
    {| embyViews := []; selectedView := selectedView st;
       loadingViews := false; hasRestoredViewRef := hasRestoredViewRef st |}).
  { destruct Ho as [->|(message & views & -> & Hm)]; [reflexivity|].
    unfold fetchEmbyViews_settled.
    destruct message; [contradiction|reflexivity]. }
  rewrite E. split; [reflexivity|split; [reflexivity|split; [exact Hr|]]].
  intros v views Hin Hv. unfold fetchEmbyViews_settled.
  assert (Ht : truthy (Some (view_id v)) = true)
    by (destruct (view_id v); [contradiction|reflexivity]).
  assert (Ex : existsb (fun v0 => String.eqb (view_id v0)
                                    (default "" (Some (view_id v))))
                 (default [] (Some views)) = true).
  { apply existsb_exists. exists v.
    split; [apply list_elem_of_In, Hin|apply String.eqb_refl]. }
  rewrite Ht, Ex. simpl. rewrite Hr. reflexivity.
Qed.

(** X22: when a video has no year of its own, the card shows the part
    of the release date before its first dash, and so never a dash: for
    [2024-05-01] it shows [2024]. *)
Theorem card_year_from_release_date (year releaseDate : option string)
    (y rest : string) :
  truthy year = false ->
  includes y "-" = false ->
  includes (cardYear year releaseDate) "-" = false /\
  cardYear year (Some (y ++ "-" ++ rest)%string) = y.
Proof.
  intros Hyear Hy. unfold cardYear. rewrite Hyear. split.
  - destruct (truthy releaseDate); [|reflexivity].
    destruct (split_first_piece (default "" releaseDate) "-")
      as (piece & pieces & -> & Hp). exact Hp.
  - assert (Ht : truthy (Some (y ++ "-" ++ rest)%string) = true)
      by (destruct y; reflexivity).
    rewrite Ht. simpl.
    change (y ++ "-" ++ rest)%string with (y ++ String "-" rest)%string.
    rewrite (split_at_separator _ _ _ Hy). reflexivity.
Qed.

End ChromeProperties.

(** ** The dialog and the page on concrete inputs *)

Section FurtherExamples.
Import Settings DialogSamples.
Local Open Scope list_scope.

Lemma blank_keyword_witness :
  Forall (fun a => space1 a = true)
         (list_ascii_of_string (newKeyword typing_blanks)) /\
  config (handleAddRule 1700000000000 typing_blanks) = config typing_blanks /\
  newKeyword (handleAddRule 1700000000000 typing_blanks)
    = newKeyword typing_blanks /\
  alerts (handleAddRule 1700000000000 typing_blanks)
    = "请输入关键字" :: alerts typing_blanks.
Proof.
  assert (Hb : Forall (fun a => space1 a = true)
                 (list_ascii_of_string (newKeyword typing_blanks))).
  { apply Forall_cons_2; [reflexivity|].
    apply Forall_cons_2; [reflexivity|apply Forall_nil_2]. }
  split; [exact Hb|].
  apply (blank_keyword_adds_nothing 1700000000000 typing_blanks Hb).
Defined.

Lemma ad_rule_well_shaped : Forall well_shaped (rules (config typing)).
Proof.
  apply Forall_cons_2; [|apply Forall_nil_2]. split; [discriminate|reflexivity].
Defined.

Lemma dialog_rules_stay_well_shaped_witness :
  Forall well_shaped (rules (config typing)) /\
  Forall well_shaped
    (rules (config (acts typing
       [Add 1700000000000; Toggle (Some "17"); Type_ "dog"; Add 1700000000001;
        Delete (Some "1700000000000"); SaveStart;
        SaveSettled true (JS.Throw JS.HostError)]))).
Proof.
  split; [exact ad_rule_well_shaped|].
  apply (dialog_rules_stay_well_shaped typing _ ad_rule_well_shaped).
  repeat (apply Forall_cons_2; [exact I|]). apply Forall_nil_2.
Defined.

Lemma delete_removes_exactly_witness :
  truthy (Some "17") = true /\
  (forall r, r ∈ rules (config (handleDeleteRule (Some "17") with_legacy)) <->
             r ∈ rules (config with_legacy) /\ id r <> Some "17") /\
  rules (config (handleDeleteRule (Some "17") with_legacy))
    `sublist_of` rules (config with_legacy) /\
  (forall kept,
      kept `sublist_of` rules (config with_legacy) ->
      Forall (fun r => id r <> Some "17") kept ->
      kept `sublist_of` rules (config (handleDeleteRule (Some "17") with_legacy))) /\
  handleDeleteRule (Some "17") (handleDeleteRule (Some "17") with_legacy)
    = handleDeleteRule (Some "17") with_legacy.
Proof.
  split; [reflexivity|].
  apply (delete_removes_exactly (Some "17") with_legacy eq_refl).
Defined.

Lemma rules_without_id_are_stuck_witness :
  filter (fun r => id r = None)
    (rules (config (acts with_legacy
       [Delete None; Toggle None; Delete (Some "17"); Toggle (Some "spoiler");
        Add 1700000000000]))) = [legacy_rule].
Proof.
  apply (rules_without_id_are_stuck with_legacy
           [Delete None; Toggle None; Delete (Some "17");
            Toggle (Some "spoiler"); Add 1700000000000]).
  repeat (apply Forall_cons_2; [exact I|]). apply Forall_nil_2.
Defined.

Lemma typing_is_fresh :
  trim (newKeyword typing) <> "" /\
  Forall (fun r => id r <> Some (pretty 1700000000000%Z)) (rules (config typing)).
Proof.
  split; [discriminate|].
  apply Forall_cons_2; [discriminate|apply Forall_nil_2].
Defined.

Lemma add_then_delete_witness :
  rules (config (handleAddRule 1700000000000 typing)) =
    [ad_rule;
     {| keyword := "cat"; type := regex; enabled := true;
        id := Some "1700000000000" |}] /\
  config (handleDeleteRule (Some "1700000000000")
            (handleAddRule 1700000000000 typing)) = config typing.
Proof.
  apply (add_then_delete_restores 1700000000000 typing
           (proj1 typing_is_fresh) (proj2 typing_is_fresh)).
Defined.

Lemma same_millisecond_witness :
  trim "dog" <> "" /\
  length (rules (config
            (handleAddRule 1700000000000
               (setNewKeyword "dog" (handleAddRule 1700000000000 typing)))))
    = 3%nat /\
  config (handleDeleteRule (Some "1700000000000")
            (handleAddRule 1700000000000
               (setNewKeyword "dog" (handleAddRule 1700000000000 typing))))
    = config typing.
Proof.
  assert (Hdog : trim "dog" <> "") by discriminate.
  split; [exact Hdog|].
  apply (same_millisecond_rules_share_fate 1700000000000 "dog" typing
           (proj1 typing_is_fresh) Hdog (proj2 typing_is_fresh)).
Defined.

End FurtherExamples.

Section PageFurtherExamples.
Import PrivateLibrary Traces LibraryChrome ViewSamples.
Local Open Scope list_scope.

Lemma unconfigured_source_witness :
  (PrivateLibrary.sourceType (openlist_page 1) = "openlist" /\
   OPENLIST_ENABLED emby_only = false) /\
  pending (fetchVideos emby_only (openlist_page 1) initial) = pending initial /\
  length (signals (fetchVideos emby_only (openlist_page 1) initial)) = 0%nat /\
  loading (fetchVideos emby_only (openlist_page 1) initial) = false.
Proof.
  assert (Hoff : PrivateLibrary.sourceType (openlist_page 1) = "openlist" /\
                 OPENLIST_ENABLED emby_only = false) by (split; reflexivity).
  split; [exact Hoff|].
  destruct (unconfigured_source_issues_no_request emby_only (openlist_page 1)
              initial (or_introl Hoff)) as (Hp & Hl & _ & Hload & _).
  split; [exact Hp|]. split; [exact Hl|exact Hload].
Defined.

Lemma first_request_is_live :
  is_Some (pending (run openlist_only initial [FetchEffect (openlist_page 1)])
             !! 0%nat) /\
  aborted (run openlist_only initial [FetchEffect (openlist_page 1)]) 0 = false.
Proof. split; [exists first_request; reflexivity|reflexivity]. Defined.

Lemma at_most_one_live_request_witness :
  (is_Some (pending (run openlist_only initial [FetchEffect (openlist_page 1)])
              !! 0%nat) /\
   aborted (run openlist_only initial [FetchEffect (openlist_page 1)]) 0
     = false) /\
  0%nat = 0%nat.
Proof.
  split; [exact first_request_is_live|].
  apply (at_most_one_live_request openlist_only
           [FetchEffect (openlist_page 1)] 0 0
           (proj1 first_request_is_live) (proj2 first_request_is_live)
           (proj1 first_request_is_live) (proj2 first_request_is_live)).
Defined.

Lemma failed_fetch_witness :
  (pending first_page_requested !! 0%nat = Some first_request /\
   aborted first_page_requested 0 = false) /\
  error (fetchVideos_resume 0 NotOk first_page_requested) = "获取视频列表失败" /\
  videos (fetchVideos_resume 0 NotOk first_page_requested) = [] /\
  hasMore (fetchVideos_resume 0 NotOk first_page_requested) = true /\
  loading (fetchVideos_resume 0 NotOk first_page_requested) = false /\
  loadingMore (fetchVideos_resume 0 NotOk first_page_requested) = false /\
  isFetchingRef (fetchVideos_resume 0 NotOk first_page_requested) = false /\
  pending (fetchVideos_resume 0 NotOk first_page_requested) !! 0%nat = None.
Proof.
  assert (Hp : pending first_page_requested !! 0%nat = Some first_request)
    by reflexivity.
  assert (Ha : aborted first_page_requested 0 = false) by reflexivity.
  split; [split; assumption|].
  apply (failed_fetch_sets_error 0 first_request NotOk first_page_requested
           Hp Ha (or_intror (or_introl eq_refl))).
Defined.

Lemma error_response_witness :
  (pending first_page_requested !! 0%nat = Some first_request /\
   aborted first_page_requested 0 = false /\
   "down" <> "") /\
  error (fetchVideos_resume 0
           (Answered {| data_error := Some "down"; data_list := Some [film "a"];
                        data_page := Some 1%Z; data_totalPages := Some 9%Z |})
           first_page_requested) = "down" /\
  videos (fetchVideos_resume 0
            (Answered {| data_error := Some "down"; data_list := Some [film "a"];
                         data_page := Some 1%Z; data_totalPages := Some 9%Z |})
            first_page_requested) = [] /\
  hasMore (fetchVideos_resume 0
             (Answered {| data_error := Some "down"; data_list := Some [film "a"];
                          data_page := Some 1%Z; data_totalPages := Some 9%Z |})
             first_page_requested) = true /\
  isFetchingRef (fetchVideos_resume 0
             (Answered {| data_error := Some "down"; data_list := Some [film "a"];
                          data_page := Some 1%Z; data_totalPages := Some 9%Z |})
             first_page_requested) = false.
Proof.
  assert (Hp : pending first_page_requested !! 0%nat = Some first_request)
    by reflexivity.
  assert (Ha : aborted first_page_requested 0 = false) by reflexivity.
  assert (Hm : "down" <> "") by discriminate.
  split; [split; [exact Hp|split; [exact Ha|exact Hm]]|].
  apply (error_response_populates_nothing 0 first_request
           {| data_error := Some "down"; data_list := Some [film "a"];
              data_page := Some 1%Z; data_totalPages := Some 9%Z |}
           first_page_requested "down" Hp Ha eq_refl Hm).
Defined.

Lemma openlist_configured (n : Z) : configured openlist_only (openlist_page n).
Proof. split; [reflexivity|discriminate]. Defined.

Lemma observer_waits_witness :
  configured openlist_only (openlist_page 1) /\
  st_page
    (run openlist_only (fetchVideos openlist_only (openlist_page 1) initial)
       [Intersecting; ChooseView "v1"; Intersecting; FetchCleanup;
        Intersecting]) = 1%Z.
Proof.
  split; [exact (openlist_configured 1)|].
  assert (Hquiet : Forall (fun e => match e with
                                    | ResetOnSource | ResetOnView
                                    | Settled _ _ => False
                                    | _ => True
                                    end)
             [Intersecting; ChooseView "v1"; Intersecting; FetchCleanup;
              Intersecting]).
  { repeat (apply Forall_cons_2; [exact I|]). apply Forall_nil_2. }
  apply (proj1 (proj2 (observer_waits openlist_only (openlist_page 1) initial
           _ (openlist_configured 1) Hquiet))).
Defined.

Lemma no_page_past_the_last_witness :
  (successful (answer [film "c"] 2 2) /\ (2 <> 0)%Z /\ (2 <= 2)%Z) /\
  hasMore (fetch_page openlist_only initial
             (openlist_page 2, answer [film "c"] 2 2)) = false /\
  intersecting (fetch_page openlist_only initial
                  (openlist_page 2, answer [film "c"] 2 2)) =
    fetch_page openlist_only initial (openlist_page 2, answer [film "c"] 2 2).
Proof.
  assert (Hne : (2 <> 0)%Z) by discriminate.
  assert (Hle : (2 <= 2)%Z) by lia.
  split; [split; [reflexivity|split; assumption]|].
  apply (no_page_past_the_last openlist_only (openlist_page 2)
           (answer [film "c"] 2 2) initial 2 2
           (openlist_configured 2) eq_refl eq_refl Hne eq_refl Hle).
Defined.

Lemma parse_stops_at_second_colon_witness :
  (includes "emby" ":" = false /\ includes "home" ":" = false) /\
  parseSourceParam (Some "emby:home") =
    {| parsed_sourceType := "emby"; parsed_embyKey := Some "home" |} /\
  parseSourceParam (Some "emby:home:attic") =
    {| parsed_sourceType := "emby"; parsed_embyKey := Some "home" |}.
Proof.
  split; [split; reflexivity|].
  apply (parse_stops_at_second_colon "emby" "home" "attic" eq_refl eq_refl).
Defined.

Lemma card_form_is_not_parsed_witness :
  ("home" <> "" /\ includes "home" ":" = false) /\
  cardSourceParam "emby" (Some "home") = "emby_home" /\
  parseSourceParam (Some (cardSourceParam "emby" (Some "home"))) =
    {| parsed_sourceType := "emby_home"; parsed_embyKey := None |} /\
  parsed_sourceType
    (parseSourceParam (Some (cardSourceParam "emby" (Some "home")))) <> "emby".
Proof.
  assert (Hk : "home" <> "") by discriminate.
  split; [split; [exact Hk|reflexivity]|].
  apply (card_form_is_not_parsed "home" Hk eq_refl).
Defined.

Lemma source_type_survives_url_witness :
  ("emby" = "openlist" \/ "emby" = "emby") /\
  parsed_sourceType
    (parseSourceParam (Some (sourceParam "emby" (Some "a:b") two_sources)))
    = "emby".
Proof.
  assert (Hs : "emby" = "openlist" \/ "emby" = "emby") by (right; reflexivity).
  split; [exact Hs|].
  apply (source_type_survives_url "emby" (Some "a:b") two_sources Hs).
Defined.

Lemma init_restores_written_selection_witness :
  ((OPENLIST_ENABLED openlist_only = true \/ EMBY_ENABLED openlist_only = false) /\
   "emby2" <> "" /\ includes "emby2" ":" = false /\
   (1 < length two_sources)%nat) /\
  st_sourceType
    (initFromUrl openlist_only
       (Some (sourceParam "emby" (Some "emby2") two_sources)) initial) = "emby" /\
  st_embyKey
    (initFromUrl openlist_only
       (Some (sourceParam "emby" (Some "emby2") two_sources)) initial)
    = Some "emby2" /\
  isInitializedRef
    (initFromUrl openlist_only
       (Some (sourceParam "emby" (Some "emby2") two_sources)) initial) = true.
Proof.
  assert (Hfree : OPENLIST_ENABLED openlist_only = true \/
                  EMBY_ENABLED openlist_only = false) by (left; reflexivity).
  assert (Hk : "emby2" <> "") by discriminate.
  assert (Hmany : (1 < length two_sources)%nat) by (simpl; lia).
  split; [split; [exact Hfree|split; [exact Hk|split; [reflexivity|exact Hmany]]]|].
  apply (init_restores_written_selection openlist_only "emby2" two_sources
           initial Hfree Hk eq_refl Hmany).
Defined.

Lemma view_restored_at_most_once_witness :
  hasRestoredViewRef restored = true /\
  LibraryChrome.selectedView
    (fold_left (fun s p => fetchEmbyViews_settled p.1 p.2 s)
       [(Some "v1", ViewsAnswered None (Some [films_view; shows_view]));
        (Some "v1", ViewsRejected)] restored) = "v2" /\
  hasRestoredViewRef
    (fold_left (fun s p => fetchEmbyViews_settled p.1 p.2 s)
       [(Some "v1", ViewsAnswered None (Some [films_view; shows_view]));
        (Some "v1", ViewsRejected)] restored) = true.
Proof.
  split; [reflexivity|].
  apply (view_restored_at_most_once restored
           [(Some "v1", ViewsAnswered None (Some [films_view; shows_view]));
            (Some "v1", ViewsRejected)] eq_refl).
Defined.

Lemma failed_views_load_witness :
  (hasRestoredViewRef no_views = false /\ "busy" <> "") /\
  embyViews (fetchEmbyViews_settled (Some "v2")
               (ViewsAnswered (Some "busy") (Some [shows_view])) no_views) = [] /\
  LibraryChrome.selectedView
    (fetchEmbyViews_settled (Some "v2")
       (ViewsAnswered (Some "busy") (Some [shows_view])) no_views) = "all" /\
  hasRestoredViewRef
    (fetchEmbyViews_settled (Some "v2")
       (ViewsAnswered (Some "busy") (Some [shows_view])) no_views) = false.
Proof.
  assert (Hm : "busy" <> "") by discriminate.
  split; [split; [reflexivity|exact Hm]|].
  destruct (failed_views_load_keeps_restore (Some "v2")
              (ViewsAnswered (Some "busy") (Some [shows_view])) no_views eq_refl
              (or_intror (ex_intro _ "busy"
                 (ex_intro _ (Some [shows_view]) (conj eq_refl Hm)))))
    as (Hv & Hs & Hr & _).
  split; [exact Hv|]. split; [exact Hs|exact Hr].
Defined.

Lemma card_year_witness :
  (truthy None = false /\ includes "2024" "-" = false) /\
  includes (cardYear None (Some "2024-05-01")) "-" = false /\
  cardYear None (Some "2024-05-01") = "2024".
Proof.
  split; [split; reflexivity|].
  apply (card_year_from_release_date None (Some "2024-05-01") "2024" "05-01"
           eq_refl eq_refl).
Defined.

End PageFurtherExamples.
